(** * Psytools JSON download client (imagen_psytools_download_json.py)

    A shallow embedding of the LimeSurvey JSON-RPC session client and of
    [download_json], the per-survey synchronisation loop.

    Modelling conventions.
    - Python values that travel through the program are decoded JSON
      documents; they are embedded as [pyval].  Dictionaries keep insertion
      order and may, once responses have been re-keyed, carry keys that are
      not strings, hence the separate key type [pykey].
    - Python strings are embedded as [string]: sequences of code points in
      the range 0..255.  Floating point numbers are left out of [pyval].
    - Exceptions are explicit: a computation returns a [result].
    - Effects are explicit: the request counter of the class, the requests
      posted so far, and the file system (files as the text read back in text
      mode) are the fields of [world]; effectful code is written in the
      state-and-exception monad [M].
    - The remote service and the base64/UTF-8/JSON decoding of an export
      are not part of the program: they are variables of the section that
      holds the client.
    - Calls to [logging] and [print] are not modelled. *)

From Stdlib Require Import ZArith Ascii String List Bool Lia Permutation.
From Stdlib Require Import DecimalString DecimalZ DecimalPos.
From stdpp Require Import base gmap strings.
Import ListNotations.

Local Open Scope Z_scope.
Local Open Scope string_scope.

(* stdpp keeps [simpl] from unfolding the concatenation of strings and the
   arithmetic of [N] and [positive]; the proofs about texts compute with
   character codes. *)
Local Arguments String.append : simpl nomatch.
Local Arguments N.add : simpl nomatch.
Local Arguments N.mul : simpl nomatch.
Local Arguments N.sub : simpl nomatch.
Local Arguments Pos.add : simpl nomatch.
Local Arguments Pos.mul : simpl nomatch.
Local Arguments Pos.succ : simpl nomatch.
Local Arguments Pos.sub : simpl nomatch.
Local Arguments Pos.pred : simpl nomatch.

(** ** Python values *)

Set Warnings "-register-all".

Inductive pykey :=
| KNone
| KBool (b : bool)
| KInt (z : Z)
| KStr (s : string).

Inductive pyval :=
| PNone
| PBool (b : bool)
| PInt (z : Z)
| PStr (s : string)
| PList (l : list pyval)
| PDict (d : list (pykey * pyval)).

Inductive exn :=
| KeyError
| TypeError
| AttributeError
| AssertionError
| ValueError
| TransportError
| LimeSurveyError (message code : pyval).

Inductive result (A : Type) :=
| Ok (a : A)
| Raise (e : exn).
Arguments Ok {A} a.
Arguments Raise {A} e.

Definition rbind {A B} (r : result A) (k : A -> result B) : result B :=
  match r with
  | Ok a => k a
  | Raise e => Raise e
  end.

(** [bool] is a subclass of [int]: [True == 1], [False == 0], and they hash
    alike, so they are the same dictionary key. *)
Definition key_num (k : pykey) : option Z :=
  match k with
  | KBool b => Some (if b then 1 else 0)
  | KInt z => Some z
  | _ => None
  end.

Definition key_eqb (a b : pykey) : bool :=
  match a, b with
  | KNone, KNone => true
  | KStr s, KStr t => String.eqb s t
  | _, _ =>
      match key_num a, key_num b with
      | Some x, Some y => Z.eqb x y
      | _, _ => false
      end
  end.

(** [hash(v)]: lists and dictionaries are unhashable. *)
Definition to_key (v : pyval) : result pykey :=
  match v with
  | PNone => Ok KNone
  | PBool b => Ok (KBool b)
  | PInt z => Ok (KInt z)
  | PStr s => Ok (KStr s)
  | PList _ | PDict _ => Raise TypeError
  end.

Definition of_key (k : pykey) : pyval :=
  match k with
  | KNone => PNone
  | KBool b => PBool b
  | KInt z => PInt z
  | KStr s => PStr s
  end.

Fixpoint dict_get (d : list (pykey * pyval)) (k : pykey) : option pyval :=
  match d with
  | [] => None
  | (k', v) :: d' => if key_eqb k' k then Some v else dict_get d' k
  end.

(** [d[k] = v]: an existing key keeps its place (and its key object). *)
Fixpoint dict_set (d : list (pykey * pyval)) (k : pykey) (v : pyval)
  : list (pykey * pyval) :=
  match d with
  | [] => [(k, v)]
  | (k', v') :: d' =>
      if key_eqb k' k then (k', v) :: d' else (k', v') :: dict_set d' k v
  end.

(** [o[k]] for a string [k]. *)
Definition getitem (o : pyval) (k : string) : result pyval :=
  match o with
  | PDict d =>
      match dict_get d (KStr k) with
      | Some v => Ok v
      | None => Raise KeyError
      end
  | _ => Raise TypeError
  end.

(** [d[k]] for a dictionary [d] and any value [k]. *)
Definition dict_getitem (d : list (pykey * pyval)) (k : pyval) : result pyval :=
  rbind (to_key k) (fun k' =>
    match dict_get d k' with
    | Some v => Ok v
    | None => Raise KeyError
    end).

(** Truth value of an object, as tested by [if error:]. *)
Definition truthy (v : pyval) : bool :=
  match v with
  | PNone => false
  | PBool b => b
  | PInt z => negb (Z.eqb z 0)
  | PStr s => negb (String.eqb s EmptyString)
  | PList l => match l with [] => false | _ => true end
  | PDict d => match d with [] => false | _ => true end
  end.

Definition is_none (v : pyval) : bool :=
  match v with
  | PNone => true
  | _ => false
  end.

(** [v == s] for a string literal [s]. *)
Definition eq_str (v : pyval) (s : string) : bool :=
  match v with
  | PStr t => String.eqb t s
  | _ => false
  end.

(** [v == z] for an integer [z]. *)
Definition eq_int (v : pyval) (z : Z) : bool :=
  match v with
  | PInt y => Z.eqb y z
  | PBool b => Z.eqb (if b then 1 else 0) z
  | _ => false
  end.

(** [sub in s] on strings. *)
Fixpoint is_substring (sub s : string) : bool :=
  if String.prefix sub s then true
  else match s with
       | EmptyString => false
       | String _ s' => is_substring sub s'
       end.

(** [k in o] for a string literal [k]. *)
Definition contains (o : pyval) (k : string) : result bool :=
  match o with
  | PDict d => Ok (match dict_get d (KStr k) with Some _ => true | None => false end)
  | PList l => Ok (existsb (fun x => eq_str x k) l)
  | PStr s => Ok (is_substring k s)
  | _ => Raise TypeError
  end.

Fixpoint chars (s : string) : list pyval :=
  match s with
  | EmptyString => []
  | String c s' => PStr (String c EmptyString) :: chars s'
  end.

(** [for x in o]: the elements [o] yields. *)
Definition iterate (o : pyval) : result (list pyval) :=
  match o with
  | PList l => Ok l
  | PDict d => Ok (map (fun kv => of_key (fst kv)) d)
  | PStr s => Ok (chars s)
  | _ => Raise TypeError
  end.

(** [r.items()] *)
Definition items (o : pyval) : result (list (pykey * pyval)) :=
  match o with
  | PDict d => Ok d
  | _ => Raise AttributeError
  end.

(** ** json.dumps(o, indent=4, separators=(',', ': '), sort_keys=True) *)

Definition dquote : ascii := "034"%char.
Definition newline : ascii := "010"%char.

Definition hex_digit (n : N) : ascii :=
  ascii_of_N (if (n <? 10)%N then 48 + n else 87 + n)%N.

(** One character of [py_encode_basestring_ascii]: the table ESCAPE_DCT,
    printable ASCII as it is, anything else as a [\uXXXX] escape. *)
Definition escape_char (c : ascii) : string :=
  let n := N_of_ascii c in
  if (n =? 34)%N then String "\" (String dquote EmptyString)
  else if (n =? 92)%N then "\\"
  else if (n =? 10)%N then "\n"
  else if (n =? 13)%N then "\r"
  else if (n =? 9)%N then "\t"
  else if (n =? 8)%N then "\b"
  else if (n =? 12)%N then "\f"
  else if ((32 <=? n) && (n <=? 126))%N then String c EmptyString
  else "\u00" ++ String (hex_digit (n / 16)) (String (hex_digit (n mod 16)) EmptyString).

Fixpoint escape (s : string) : string :=
  match s with
  | EmptyString => EmptyString
  | String c s' => escape_char c ++ escape s'
  end.

Definition encode_basestring_ascii (s : string) : string :=
  String dquote (escape s ++ String dquote EmptyString).

(** [int.__repr__] *)
Definition int_repr (z : Z) : string :=
  NilZero.string_of_int (Z.to_int z).

Fixpoint spaces (n : nat) : string :=
  match n with
  | O => EmptyString
  | S n' => String " " (spaces n')
  end.

(** ['\n' + '    ' * level] *)
Definition newline_indent (level : nat) : string :=
  String newline (spaces (4 * level)).

(** The text around the already encoded elements of a list or the
    already encoded items of a dictionary. *)
Definition bracket (open close : string) (level : nat) (chunks : list string) : string :=
  match chunks with
  | [] => open ++ close
  | _ =>
      open ++ newline_indent (S level)
      ++ String.concat ("," ++ newline_indent (S level)) chunks
      ++ newline_indent level ++ close
  end.

(** A dictionary key as the string that is written for it. *)
Definition key_str (k : pykey) : string :=
  match k with
  | KStr s => s
  | KBool true => "true"
  | KBool false => "false"
  | KNone => "null"
  | KInt z => int_repr z
  end.

(** [a < b] on keys: [None] where Python raises TypeError. *)
Definition key_ltb (a b : pykey) : option bool :=
  match a, b with
  | KStr s, KStr t => Some (String.ltb s t)
  | _, _ =>
      match key_num a, key_num b with
      | Some x, Some y => Some (Z.ltb x y)
      | _, _ => None
      end
  end.

(** [sorted(dct.items())]: the keys of a dictionary are pairwise different,
    so the items are ordered by their keys alone.  Sorting two or more
    items compares every item with some other one, and raises TypeError as
    soon as two keys cannot be compared. *)
Fixpoint insert_item {A} (x : pykey * A) (l : list (pykey * A))
  : result (list (pykey * A)) :=
  match l with
  | [] => Ok [x]
  | y :: l' =>
      match key_ltb (fst y) (fst x) with
      | None => Raise TypeError
      | Some true => rbind (insert_item x l') (fun r => Ok (y :: r))
      | Some false => Ok (x :: l)
      end
  end.

Fixpoint sort_items {A} (l : list (pykey * A)) : result (list (pykey * A)) :=
  match l with
  | [] => Ok []
  | x :: l' => rbind (sort_items l') (insert_item x)
  end.

Definition item_text (kc : pykey * string) : string :=
  encode_basestring_ascii (key_str (fst kc)) ++ ": " ++ snd kc.

(** [_iterencode]: the values of a container are encoded one level deeper;
    the items of a dictionary are sorted before they are written. *)
Fixpoint encode (level : nat) (o : pyval) {struct o} : result string :=
  match o with
  | PNone => Ok "null"
  | PBool true => Ok "true"
  | PBool false => Ok "false"
  | PInt z => Ok (int_repr z)
  | PStr s => Ok (encode_basestring_ascii s)
  | PList l =>
      let each :=
        fix each (l : list pyval) : result (list string) :=
          match l with
          | [] => Ok []
          | x :: l' =>
              match encode (S level) x with
              | Raise e => Raise e
              | Ok c =>
                  match each l' with
                  | Raise e => Raise e
                  | Ok cs => Ok (c :: cs)
                  end
              end
          end in
      rbind (each l) (fun chunks => Ok (bracket "[" "]" level chunks))
  | PDict d =>
      let each :=
        fix each (d : list (pykey * pyval)) : result (list (pykey * string)) :=
          match d with
          | [] => Ok []
          | (k, x) :: d' =>
              match encode (S level) x with
              | Raise e => Raise e
              | Ok c =>
                  match each d' with
                  | Raise e => Raise e
                  | Ok cs => Ok ((k, c) :: cs)
                  end
              end
          end in
      rbind (each d) (fun kcs =>
      rbind (sort_items kcs) (fun sorted =>
      Ok (bracket "{" "}" level (map item_text sorted))))
  end.

Definition dumps (o : pyval) : result string := encode 0 o.

(** ** json.loads *)

(** The decoder of the module json, for the documents [pyval] can hold:
    a number with a fraction or an exponent, and a [\uXXXX] escape above
    [ÿ], are outside of it and make [loads] fail here.  The text is
    scanned as [scan_once], [JSONArray], [JSONObject] and [scanstring] do;
    [fuel] bounds the depth of the calls. *)



















(** ** The world the client runs in *)

(** The envelope built by [_request]; its ['jsonrpc'] field is the constant
    ['2.0']. *)
Record request := {
  req_id : Z;
  req_method : string;
  req_params : list pyval;
}.

(** What [session.post(...).json()] gives: the decoded body, or an exception
    of the transport (connection failure, body that is not JSON). *)
Inductive reply :=
| NoReply
| Body (response : pyval).

Record world := {
  request_id : Z;                     (* LimeSurveySession.__request_id *)
  sent : list request;                (* requests posted so far, oldest first *)
  fs : gmap string string;            (* regular files, by path *)
  written : list (string * string);   (* calls of write, oldest first *)
}.

Definition M (A : Type) : Type := world -> result A * world.

Definition ret {A} (a : A) : M A := fun w => (Ok a, w).
Definition raise {A} (e : exn) : M A := fun w => (Raise e, w).
Definition bind {A B} (m : M A) (k : A -> M B) : M B :=
  fun w =>
    match m w with
    | (Ok a, w') => k a w'
    | (Raise e, w') => (Raise e, w')
    end.
Definition lift {A} (r : result A) : M A := fun w => (r, w).

Notation "x <- m ; k" := (bind m (fun x => k))
  (at level 20, m at level 100, k at level 200, only parsing).
Notation "' p <- m ; k" := (bind m (fun x => let 'p := x in k))
  (at level 20, p pattern, m at level 100, k at level 200, only parsing).

(** [for x in l: body x], stopping at the first exception. *)
Fixpoint for_each {A} (body : A -> M unit) (l : list A) : M unit :=
  match l with
  | [] => ret tt
  | x :: l' => _ <- body x ; for_each body l'
  end.

(** [try: m finally: h], the shape of a [with] block whose [__exit__]
    returns [False]: [h] runs on every exit of [m]; an exception of [h]
    replaces the one of [m]. *)
Definition finally {A} (m : M A) (h : M unit) : M A :=
  fun w =>
    match m w with
    | (r, w') =>
        match h w' with
        | (Ok _, w'') => (r, w'')
        | (Raise e, w'') => (Raise e, w'')
        end
    end.

Definition PSYTOOLS_FU3_MASTER_DIR : string :=
  "/neurospin/imagen/FU3/RAW/PSC1/psytools".

Definition JSON_BASE_URL : string :=
  "https://www.delosis.com/qs/index.php/admin/remotecontrol".

(** The error object the client builds for a status the service reported in
    the result. *)
Definition status_error (message : pyval) : pyval :=
  PDict [(KStr "code", PInt (-32099)); (KStr "message", message)].

Definition expected_base64 : string :=
  "JSON-RPC function " ++ String dquote ("export_responses"
  ++ String dquote " expected a Base64-encoded string").

Definition caught_TypeError_KeyError (e : exn) : bool :=
  match e with
  | TypeError | KeyError => true
  | _ => false
  end.

Definition error2exception (func : M (pyval * pyval)) : M pyval :=
  '(response, error) <- func ;
  if truthy error then
    match rbind (getitem error "code") (fun code =>
          rbind (getitem error "message") (fun message =>
          Ok (message, code))) with
    | Ok (message, code) => raise (LimeSurveyError message code)
    | Raise e =>
        if caught_TypeError_KeyError e then
          raise (LimeSurveyError (PStr "Unexpected JSON-RPC error type")
                                 (PInt (-32603)))
        else raise e
    end
  else ret response.

Module LimeSurveySession.

Record t := {
  url : string;
  key : pyval;
}.

Section Remote.

(** The remote service: the reply to a request, given the requests it has
    received before. *)
Variable server : list request -> request -> reply.

(** [json.loads(base64.b64decode(s).decode('utf_8'))] for a string [s];
    [None] when one of the three steps raises (binascii.Error,
    UnicodeDecodeError and JSONDecodeError are all ValueError). *)
Variable export_decode : string -> option pyval.

Definition _generate_request_id : M Z :=
  fun w =>
    let n := request_id w + 1 in
    (Ok n, {| request_id := n; sent := sent w; fs := fs w;
              written := written w |}).

Definition _request (method : string) (params : list pyval) : M request :=
  n <- _generate_request_id ;
  ret {| req_id := n; req_method := method; req_params := params |}.

(** [self.session.post(self.url, data=json.dumps(request)).json()] *)
Definition post_json (rq : request) : M pyval :=
  fun w =>
    let w' := {| request_id := request_id w; sent := sent w ++ [rq];
                 fs := fs w; written := written w |} in
    match server (sent w) rq with
    | NoReply => (Raise TransportError, w')
    | Body response => (Ok response, w')
    end.

(** The first assertion of [_post] holds of every envelope [_request]
    builds; the second one compares the identifiers with [==]. *)
Definition _post (rq : request) : M (pyval * pyval) :=
  response <- post_json rq ;
  id <- lift (getitem response "id") ;
  if eq_int id (req_id rq) then
    result <- lift (getitem response "result") ;
    error <- lift (getitem response "error") ;
    ret (result, error)
  else raise AssertionError.

Definition _get_session_key (username password : pyval) : M pyval :=
  rq <- _request "get_session_key" [username; password] ;
  '(response, error) <- _post rq ;
  match getitem response "status" with
  | Raise e =>
      if caught_TypeError_KeyError e then
        if negb (is_none error) then ret PNone else ret response
      else raise e
  | Ok status => ret PNone
  end.

Definition __init__ (url : string) (username password : pyval) : M t :=
  k <- _get_session_key username password ;
  ret {| url := url; key := k |}.

Definition _release_session_key (k : pyval) : M unit :=
  rq <- _request "release_session_key" [k] ;
  _ <- _post rq ;
  ret tt.

(** [close] leaves the session object with [key = None]. *)
Definition close (self : t) : M t :=
  _ <- _release_session_key (key self) ;
  ret {| url := url self; key := PNone |}.

Definition surveys (self : t) : M pyval :=
  error2exception (
    rq <- _request "list_surveys" [key self] ;
    _post rq).

Definition participants (self : t) (survey attributes : pyval) : M pyval :=
  error2exception (
    rq <- _request "list_participants"
            [key self; survey; PInt 0; PInt 5000; PBool false; attributes] ;
    '(responses, error) <- _post rq ;
    match getitem responses "status" with
    | Raise e =>
        if caught_TypeError_KeyError e then ret (responses, error)
        else raise e
    | Ok status =>
        if eq_str status "No Tokens found" then
          ret (PList [], if negb (is_none error) then PNone else error)
        else ret (PList [], status_error status)
    end).

Definition participant_properties (self : t) (survey participant attributes : pyval)
  : M pyval :=
  error2exception (
    rq <- _request "get_participant_properties"
            [key self; survey; participant; attributes] ;
    _post rq).

(** [json.loads(base64.b64decode(responses).decode('utf_8'))]: anything but
    a string is rejected by [b64decode] with TypeError. *)
Definition decode_export (responses : pyval) : result pyval :=
  match responses with
  | PStr s =>
      match export_decode s with
      | Some v => Ok v
      | None => Raise ValueError
      end
  | _ => Raise TypeError
  end.

Definition responses (self : t) (survey status : pyval) : M pyval :=
  error2exception (
    rq <- _request "export_responses"
            [key self; survey; PStr "json"; PStr "fr"; status] ;
    '(responses, error) <- _post rq ;
    match decode_export responses with
    | Ok decoded => ret (decoded, error)
    | Raise TypeError =>
        let error' :=
          match getitem responses "status" with
          | Raise e =>
              (* getitem raises TypeError or KeyError only *)
              status_error (PStr expected_base64)
          | Ok status =>
              if eq_str status "No Data, could not get max id." then
                if negb (is_none error) then PNone else error
              else status_error status
          end in
        ret (PDict [(KStr "responses", PList [])], error')
    | Raise e => raise e
    end).

End Remote.
End LimeSurveySession.

(** ** download_json *)

(** [s.replace(old, new)] for a non-empty [old]: occurrences are replaced
    from left to right, without overlap; [skip] counts the characters of
    the occurrence being replaced that are still to be passed over. *)
Fixpoint replace_from (old new : string) (skip : nat) (s : string) : string :=
  match s with
  | EmptyString => EmptyString
  | String c s' =>
      match skip with
      | S n => replace_from old new n s'
      | O =>
          if String.prefix old s
          then new ++ replace_from old new (String.length old - 1) s'
          else String c (replace_from old new 0 s')
      end
  end.

Definition replace (old new s : string) : string := replace_from old new 0 s.

(** [os.path.join(a, b)] (posixpath) *)
Definition path_join (a b : string) : string :=
  if String.prefix "/" b then b
  else match a with
       | EmptyString => b
       | _ =>
           if String.eqb (String.substring (String.length a - 1) 1 a) "/"
           then a ++ b
           else a ++ "/" ++ b
       end.

(** Lines 277-282: the file a survey is saved to.  [title.replace] exists
    for strings only. *)
Definition psytools_path_of (title : pyval) : result string :=
  match title with
  | PStr t =>
      Ok (path_join PSYTOOLS_FU3_MASTER_DIR
            (replace " " "_" (replace " - " "-" t) ++ ".json"))
  | _ => Raise AttributeError
  end.

(** Lines 257-262: the correlation between "token" and PSC1 code. *)
Fixpoint index_participants (participants : list pyval)
    (psc1_from_token : list (pykey * pyval)) : result (list (pykey * pyval)) :=
  match participants with
  | [] => Ok psc1_from_token
  | participant :: rest =>
      rbind (getitem participant "tid") (fun tid =>
      rbind (getitem participant "token") (fun token =>
      rbind (getitem participant "attribute_1") (fun psc1 =>
      rbind (to_key token) (fun k =>
      index_participants rest (dict_set psc1_from_token k psc1)))))
  end.

(** Lines 271-272: [{psc1_from_token[v['token']]: v for k, v in r.items()}] *)
Fixpoint rekey_items (psc1_from_token : list (pykey * pyval))
    (kvs acc : list (pykey * pyval)) : result (list (pykey * pyval)) :=
  match kvs with
  | [] => Ok acc
  | (k, v) :: rest =>
      rbind (getitem v "token") (fun token =>
      rbind (dict_getitem psc1_from_token token) (fun psc1 =>
      rbind (to_key psc1) (fun k' =>
      rekey_items psc1_from_token rest (dict_set acc k' v))))
  end.

Definition rekey_record (psc1_from_token : list (pykey * pyval)) (r : pyval)
  : result pyval :=
  rbind (items r) (fun kvs =>
  rbind (rekey_items psc1_from_token kvs []) (fun d => Ok (PDict d))).

Fixpoint rekey_records (psc1_from_token : list (pykey * pyval))
    (rs : list pyval) : result (list pyval) :=
  match rs with
  | [] => Ok []
  | r :: rest =>
      rbind (rekey_record psc1_from_token r) (fun r' =>
      rbind (rekey_records psc1_from_token rest) (fun rest' =>
      Ok (r' :: rest')))
  end.

(** [o[k] = v] for a string [k] *)
Definition setitem (o : pyval) (k : string) (v : pyval) : result pyval :=
  match o with
  | PDict d => Ok (PDict (dict_set d (KStr k) v))
  | _ => Raise TypeError
  end.

(** Lines 270-273 *)
Definition rekey (psc1_from_token : list (pykey * pyval)) (responses : pyval)
  : result pyval :=
  rbind (contains responses "responses") (fun present =>
  if present then
    rbind (getitem responses "responses") (fun records =>
    rbind (iterate records) (fun rs =>
    rbind (rekey_records psc1_from_token rs) (fun rs' =>
    setitem responses "responses" (PList rs'))))
  else Ok responses).

(** [open(path, 'w').write(data)] *)
Definition write_file (path data : string) : M unit :=
  fun w =>
    (Ok tt, {| request_id := request_id w; sent := sent w;
               fs := <[path := data]> (fs w);
               written := written w ++ [(path, data)] |}).

(** Lines 284-296: skip a file that has not changed, write any other one. *)
Definition save (psytools_path data : string) : M unit :=
  fun w =>
    match fs w !! psytools_path with
    | Some old =>
        if String.eqb old data then ret tt w
        else write_file psytools_path data w
    | None => write_file psytools_path data w
    end.

Section Synchronizer.

Variable server : list request -> request -> reply.
Variable export_decode : string -> option pyval.

(** The body of the loop over the surveys, lines 251-296. *)
Definition download_survey (session : LimeSurveySession.t) (survey : pyval) : M unit :=
  title <- lift (getitem survey "surveyls_title") ;
  sid <- lift (getitem survey "sid") ;
  participants <- LimeSurveySession.participants server session sid
                    (PList [PStr "attribute_1"]) ;
  ps <- lift (iterate participants) ;
  psc1_from_token <- lift (index_participants ps []) ;
  responses <- LimeSurveySession.responses server export_decode session sid
                 (PStr "all") ;
  responses' <- lift (rekey psc1_from_token responses) ;
  data <- lift (dumps responses') ;
  psytools_path <- lift (psytools_path_of title) ;
  save psytools_path data.

(** [auth] is what [_get_netrc_auth] returned: [None] cannot be unpacked
    into a user name and a password. *)
Definition download_json (base_url : string) (auth : option (pyval * pyval)) : M unit :=
  match auth with
  | None => raise TypeError
  | Some (username, password) =>
      session <- LimeSurveySession.__init__ server base_url username password ;
      finally
        (surveys <- LimeSurveySession.surveys server session ;
         l <- lift (iterate surveys) ;
         for_each (download_survey session) l)
        (_ <- LimeSurveySession.close server session ; ret tt)
  end.

End Synchronizer.

(** * Auxiliary definitions *)

(** ** The requests a computation posts, the files it leaves *)

(** [only_posts m P]: whatever [m] does, it adds requests to the ones
    posted before it, and the requests it adds satisfy [P]. *)
Definition only_posts {A} (m : M A) (P : request -> Prop) : Prop :=
  forall w, exists delta,
    sent (snd (m w)) = (sent w ++ delta)%list /\ Forall P delta.

(** The request [_request] builds in world [w]. *)
Definition next_request (w : world) (method : string) (params : list pyval)
  : request :=
  {| req_id := request_id w + 1; req_method := method; req_params := params |}.

(** The requests that release a session key, and their number in a list. *)
Definition is_release (rq : request) : bool :=
  String.eqb (req_method rq) "release_session_key".

Definition not_release (rq : request) : Prop := is_release rq = false.

Definition releases (l : list request) : nat := length (filter is_release l).


(** [keeps_files m]: [m] neither writes nor changes a file. *)
Definition keeps_files {A} (m : M A) : Prop :=
  forall w, fs (snd (m w)) = fs w /\ written (snd (m w)) = written w.

(** ** Scripted services, for the concrete runs *)

(** A well-formed reply to [rq], with the given result and error. *)
Definition reply_to (rq : request) (result_error : pyval * pyval) : reply :=
  Body (PDict [(KStr "id", PInt (req_id rq));
               (KStr "result", fst result_error);
               (KStr "error", snd result_error)]).

(** A service that answers by method; participants and exports are looked
    up by the survey identifier, the second parameter of the request. *)
Record script := {
  on_get_session_key : pyval * pyval;
  on_list_surveys : pyval * pyval;
  on_list_participants : pyval -> pyval * pyval;
  on_export_responses : pyval -> pyval * pyval;
}.

Definition scripted (s : script) : list request -> request -> reply :=
  fun _ rq =>
    let sid := nth 1 (req_params rq) PNone in
    if String.eqb (req_method rq) "get_session_key"
    then reply_to rq (on_get_session_key s)
    else if String.eqb (req_method rq) "list_surveys"
    then reply_to rq (on_list_surveys s)
    else if String.eqb (req_method rq) "list_participants"
    then reply_to rq (on_list_participants s sid)
    else if String.eqb (req_method rq) "export_responses"
    then reply_to rq (on_export_responses s sid)
    else reply_to rq (PStr "OK", PNone).

(** A decoder given by a table from payloads to the documents they hold. *)
Fixpoint decode_table (table : list (string * pyval)) (payload : string)
  : option pyval :=
  match table with
  | [] => None
  | (p, v) :: rest => if String.eqb p payload then Some v else decode_table rest payload
  end.

Definition fresh : world :=
  {| request_id := 0; sent := []; fs := ∅; written := [] |}.

Module Examples.

Import LimeSurveySession.

Definition survey_row (sid : Z) (title : string) : pyval :=
  PDict [(KStr "sid", PInt sid); (KStr "surveyls_title", PStr title)].

Definition participant_row (tid : Z) (token psc1 : string) : pyval :=
  PDict [(KStr "tid", PInt tid); (KStr "token", PStr token);
         (KStr "attribute_1", PStr psc1)].

Definition user : pyval := PStr "imagen".
Definition password : pyval := PStr "secret".

(** The example of the specification: one survey (its title under
    [surveyls_title], the key the code reads), one participant, and an
    export whose only record, stored under "abc", holds the answer alone. *)
Definition export_without_token : pyval :=
  PDict [(KStr "responses",
          PList [PDict [(KStr "abc", PDict [(KStr "q1", PStr "5")])]])].

(** The same export with the record carrying its token, as the records of
    the service do. *)
Definition export_with_token : pyval :=
  PDict [(KStr "responses",
          PList [PDict [(KStr "abc", PDict [(KStr "q1", PStr "5");
                                            (KStr "token", PStr "abc")])]])].

(** An export with two records; the token of the second one is unknown. *)
Definition export_unknown_token : pyval :=
  PDict [(KStr "responses",
          PList [PDict [(KStr "1", PDict [(KStr "q1", PStr "5");
                                          (KStr "token", PStr "abc")])];
                 PDict [(KStr "2", PDict [(KStr "q1", PStr "3");
                                          (KStr "token", PStr "zzz")])]])].

Definition payloads : list (string * pyval) :=
  [("eyJyZXNwb25zZXMiOlt7ImFiYyI6eyJxMSI6IjUifX1dfQ==", export_without_token);
   ("eyJyZXNwb25zZXMiOlt7ImFiYyI6eyJxMSI6IjUiLCJ0b2tlbiI6ImFiYyJ9fV19",
    export_with_token);
   ("eyJyZXNwb25zZXMiOlt7IjEiOnsicTEiOiI1IiwidG9rZW4iOiJhYmMifX0seyIyIjp7InExIjoiMyIsInRva2VuIjoienp6In19XX0=",
    export_unknown_token)].

Definition decoder : string -> option pyval := decode_table payloads.

Definition baseline (payload : string) : script :=
  {| on_get_session_key := (PStr "k3y", PNone);
     on_list_surveys := (PList [survey_row 1 "T1 - Baseline"], PNone);
     on_list_participants := fun _ => (PList [participant_row 1 "abc" "PSC001"], PNone);
     on_export_responses := fun _ => (PStr payload, PNone) |}.

Definition spec_example : script :=
  baseline "eyJyZXNwb25zZXMiOlt7ImFiYyI6eyJxMSI6IjUifX1dfQ==".

Definition service_example : script :=
  baseline "eyJyZXNwb25zZXMiOlt7ImFiYyI6eyJxMSI6IjUiLCJ0b2tlbiI6ImFiYyJ9fV19".

Definition unknown_token_example : script :=
  baseline "eyJyZXNwb25zZXMiOlt7IjEiOnsicTEiOiI1IiwidG9rZW4iOiJhYmMifX0seyIyIjp7InExIjoiMyIsInRva2VuIjoienp6In19XX0=".

Definition baseline_path : string :=
  "/neurospin/imagen/FU3/RAW/PSC1/psytools/T1-Baseline.json".

Definition rekeyed_export : pyval :=
  PDict [(KStr "responses",
          PList [PDict [(KStr "PSC001", PDict [(KStr "q1", PStr "5");
                                               (KStr "token", PStr "abc")])]])].

Definition run (s : script) (w : world) : result unit * world :=
  download_json (scripted s) decoder JSON_BASE_URL (Some (user, password)) w.

Definition methods (w : world) : list string := map req_method (sent w).

(** Two surveys; the participants of the first cannot be listed. *)
Definition first_survey_fails : script :=
  {| on_get_session_key := (PStr "k3y", PNone);
     on_list_surveys := (PList [survey_row 1 "A"; survey_row 2 "B"], PNone);
     on_list_participants := fun sid =>
       if eq_int sid 1
       then (PDict [(KStr "status", PStr "Error: No survey participants table")],
             PNone)
       else (PList [participant_row 1 "abc" "PSC001"], PNone);
     on_export_responses := fun _ =>
       (PStr "eyJyZXNwb25zZXMiOlt7ImFiYyI6eyJxMSI6IjUiLCJ0b2tlbiI6ImFiYyJ9fV19",
        PNone) |}.


(** The service reports an empty survey in the result and, in the same
    reply, an error object. *)
Definition conflicting_reports : script :=
  {| on_get_session_key := (PStr "k3y", PNone);
     on_list_surveys := (PList [], PNone);
     on_list_participants := fun _ =>
       (PDict [(KStr "status", PStr "No Tokens found")],
        PDict [(KStr "code", PInt (-32000));
               (KStr "message", PStr "No Tokens found")]);
     on_export_responses := fun _ =>
       (PDict [(KStr "status", PStr "No Data, could not get max id.")],
        PDict [(KStr "code", PInt (-32000));
               (KStr "message", PStr "No Data")]) |}.

Definition open_session : t := {| url := JSON_BASE_URL; key := PStr "k3y" |}.




End Examples.

(** ** Texts and the documents scanned from them *)

(** Keys that are strings. *)
Definition is_str_key (k : pykey) : bool :=
  match k with
  | KStr _ => true
  | _ => false
  end.

(** No two keys are equal, as in every dictionary. *)
Fixpoint distinct_keys (l : list pykey) : bool :=
  match l with
  | [] => true
  | k :: l' => negb (existsb (key_eqb k) l') && distinct_keys l'
  end.

(** The documents whose dictionaries are keyed by strings, all through. *)
Fixpoint string_keyed (v : pyval) : bool :=
  match v with
  | PList l => forallb string_keyed l
  | PDict d =>
      distinct_keys (map fst d)
      && forallb (fun kv => is_str_key (fst kv) && string_keyed (snd kv)) d
  | _ => true
  end.





(** Each item is followed by one whose key is not smaller. *)
Inductive ordered {A} : list (pykey * A) -> Prop :=
| ordered_nil : ordered []
| ordered_one x : ordered [x]
| ordered_cons x y l :
    key_ltb (fst y) (fst x) = Some false -> ordered (y :: l) ->
    ordered (x :: y :: l).


(** The loops of [encode] over the elements of a list and over the items
    of a dictionary, on their own. *)
Fixpoint encode_all (level : nat) (l : list pyval) : result (list string) :=
  match l with
  | [] => Ok []
  | x :: l' =>
      match encode level x with
      | Raise e => Raise e
      | Ok c =>
          match encode_all level l' with
          | Raise e => Raise e
          | Ok cs => Ok (c :: cs)
          end
      end
  end.

Fixpoint encode_items (level : nat) (d : list (pykey * pyval))
  : result (list (pykey * string)) :=
  match d with
  | [] => Ok []
  | (k, x) :: d' =>
      match encode level x with
      | Raise e => Raise e
      | Ok c =>
          match encode_items level d' with
          | Raise e => Raise e
          | Ok cs => Ok ((k, c) :: cs)
          end
      end
  end.

(** Induction on documents, with the property at hand for the elements of
    a list and for the values of a dictionary. *)
Section pyval_nested_ind.

Variable P : pyval -> Prop.
Hypothesis HNone : P PNone.
Hypothesis HBool : forall b, P (PBool b).
Hypothesis HInt : forall z, P (PInt z).
Hypothesis HStr : forall s, P (PStr s).
Hypothesis HList : forall l, Forall P l -> P (PList l).
Hypothesis HDict : forall d, Forall (fun kv => P (snd kv)) d -> P (PDict d).

Fixpoint pyval_nested_ind (v : pyval) : P v :=
  match v with
  | PNone => HNone
  | PBool b => HBool b
  | PInt z => HInt z
  | PStr s => HStr s
  | PList l =>
      HList l ((fix all (l : list pyval) : Forall P l :=
                  match l with
                  | [] => @List.Forall_nil _ P
                  | x :: l' => @List.Forall_cons _ P x l' (pyval_nested_ind x) (all l')
                  end) l)
  | PDict d =>
      HDict d ((fix all (d : list (pykey * pyval))
                  : Forall (fun kv => P (snd kv)) d :=
                  match d with
                  | [] => @List.Forall_nil _ _
                  | kv :: d' =>
                      @List.Forall_cons _ _ kv d' (pyval_nested_ind (snd kv)) (all d')
                  end) d)
  end.

End pyval_nested_ind.






(** ** The world after a call, request identifiers *)

(** The world once [rq] has been posted. *)
Definition posted (rq : request) (w : world) : world :=
  {| request_id := request_id w; sent := (sent w ++ [rq])%list;
     fs := fs w; written := written w |}.

(** The world once [method] has been called with [params]: the counter of
    requests is one further and the request has been posted. *)
Definition called (method : string) (params : list pyval) (w : world) : world :=
  {| request_id := request_id w + 1;
     sent := (sent w ++ [next_request w method params])%list;
     fs := fs w; written := written w |}.

(** The identifiers [n + 1], ..., [n + k]. *)
Fixpoint ids_from (n : Z) (k : nat) : list Z :=
  match k with
  | O => []
  | S k' => (n + 1) :: ids_from (n + 1) k'
  end.

(** [numbers m]: the requests [m] posts carry the identifiers that follow
    the counter, one after the other, and the counter has moved past them. *)
Definition numbers {A} (m : M A) : Prop :=
  forall w, exists delta,
    sent (snd (m w)) = (sent w ++ delta)%list
    /\ map req_id delta = ids_from (request_id w) (length delta)
    /\ request_id (snd (m w)) = request_id w + Z.of_nat (length delta).

(** ** Tokens and the records filed under them *)

(** The key a participant is filed under. *)
Definition token_key (participant : pyval) : result pykey :=
  rbind (getitem participant "token") to_key.

(** [filed_under m k v]: the record [v] carries a token that [m] maps to
    an identifier equal to the key [k]. *)
Definition filed_under (psc1_from_token : list (pykey * pyval)) (k : pykey)
    (v : pyval) : Prop :=
  exists token psc1 k',
    getitem v "token" = Ok token
    /\ dict_getitem psc1_from_token token = Ok psc1
    /\ to_key psc1 = Ok k'
    /\ key_eqb k k' = true.

(** ** Plain text, sorted keys *)

(** Printable ASCII characters and the line break. *)
Definition plain_char (c : ascii) : bool :=
  let n := N_of_ascii c in
  ((n =? 10) || ((32 <=? n) && (n <=? 126)))%N.

Fixpoint plain (s : string) : bool :=
  match s with
  | EmptyString => true
  | String c s' => plain_char c && plain s'
  end.

(** [below x l]: the key of [x], a string, is at most every key of [l]. *)
Definition below {A} (x : pykey * A) (l : list (pykey * A)) : Prop :=
  Forall (fun y => exists s t, fst x = KStr s /\ fst y = KStr t
                               /\ String.leb s t = true) l.

(** ** The files of a run *)

(** [tidy m]: the files [m] writes have a path without a space and hold
    plain ASCII text; [m] leaves alone the files it does not write, and
    removes none. *)
Definition tidy {A} (m : M A) : Prop :=
  forall w, exists delta : list (string * string),
    written (snd (m w)) = (written w ++ delta)%list
    /\ Forall (fun pd => is_substring " " (fst pd) = false
                         /\ plain (snd pd) = true) delta
    /\ (forall p, ~ In p (map fst delta) -> fs (snd (m w)) !! p = fs w !! p)
    /\ (forall p, fs w !! p <> None -> fs (snd (m w)) !! p <> None).

(** ** Services without a memory *)

(** A service whose replies depend on the method and the parameters of a
    request only: [content] gives the result and the error, or nothing when
    the transport fails. *)
Definition stateless (content : string -> list pyval -> option (pyval * pyval))
  : list request -> request -> reply :=
  fun _ rq =>
    match content (req_method rq) (req_params rq) with
    | Some result_error => reply_to rq result_error
    | None => NoReply
    end.

(** [detached m]: the result of [m] does not depend on the world. *)
Definition detached {A} (m : M A) : Prop :=
  exists r, forall w, fst (m w) = r.

(** The path of the file of a survey, when its title gives one. *)
Definition survey_path (survey : pyval) : result string :=
  rbind (getitem survey "surveyls_title") psytools_path_of.

Fixpoint survey_paths (l : list pyval) : list string :=
  match l with
  | [] => []
  | x :: l' =>
      match survey_path x with
      | Ok p => p :: survey_paths l'
      | Raise _ => survey_paths l'
      end
  end.

Section Survey.

Variable server : list request -> request -> reply.
Variable export_decode : string -> option pyval.

(** The body of the loop of [download_json] up to the file: the path and
    the text to save. *)
Definition prepare (session : LimeSurveySession.t) (survey : pyval)
  : M (string * string) :=
  title <- lift (getitem survey "surveyls_title") ;
  sid <- lift (getitem survey "sid") ;
  participants <- LimeSurveySession.participants server session sid
                    (PList [PStr "attribute_1"]) ;
  ps <- lift (iterate participants) ;
  psc1_from_token <- lift (index_participants ps []) ;
  responses <- LimeSurveySession.responses server export_decode session sid
                 (PStr "all") ;
  responses' <- lift (rekey psc1_from_token responses) ;
  data <- lift (dumps responses') ;
  psytools_path <- lift (psytools_path_of title) ;
  ret (psytools_path, data).

(** What the body of the loop comes to for a survey when the result of
    [prepare] does not depend on the world: the file to save, or the
    exception raised before. *)
Definition outcome (session : LimeSurveySession.t) (survey : pyval)
  : result (string * string) :=
  fst (prepare session survey fresh).

(** The files a loop over [l] finds saved already. *)
Fixpoint covered (session : LimeSurveySession.t) (l : list pyval)
    (files : gmap string string) : Prop :=
  match l with
  | [] => True
  | x :: l' =>
      match outcome session x with
      | Ok (path, data) => files !! path = Some data /\ covered session l' files
      | Raise _ => True
      end
  end.

(** The result of a loop over [l]. *)
Fixpoint loop_result (session : LimeSurveySession.t) (l : list pyval)
  : result unit :=
  match l with
  | [] => Ok tt
  | x :: l' =>
      match outcome session x with
      | Ok _ => loop_result session l'
      | Raise e => Raise e
      end
  end.

End Survey.

(** Two surveys, served without a memory: the same participant and the same
    export for both. *)
Definition two_surveys (method : string) (params : list pyval)
  : option (pyval * pyval) :=
  if String.eqb method "get_session_key" then Some (PStr "k3y", PNone)
  else if String.eqb method "list_surveys"
  then Some (PList [Examples.survey_row 1 "T1 - Baseline";
                    Examples.survey_row 2 "T2 - Follow up"], PNone)
  else if String.eqb method "list_participants"
  then Some (PList [Examples.participant_row 1 "abc" "PSC001"], PNone)
  else if String.eqb method "export_responses"
  then Some (PStr "eyJyZXNwb25zZXMiOlt7ImFiYyI6eyJxMSI6IjUiLCJ0b2tlbiI6ImFiYyJ9fV19",
             PNone)
  else if String.eqb method "release_session_key" then Some (PStr "OK", PNone)
  else None.

(** * Properties *)

Local Close Scope string_scope.

(** ** The error normaliser of [participants] and [responses] *)

Section Normalizer.

Variable server : list request -> request -> reply.
Variable export_decode : string -> option pyval.

Import LimeSurveySession.

Lemma error2exception_no_error (func : M (pyval * pyval)) w response error w' :
  func w = (Ok (response, error), w') ->
  truthy error = false ->
  error2exception func w = (Ok response, w').
Proof.
  intros Hf Ht. unfold error2exception, bind. rewrite Hf. cbn.
  now rewrite Ht.
Qed.

Lemma decode_export_not_str (v : pyval) status :
  getitem v "status" = Ok status ->
  decode_export export_decode v = Raise TypeError.
Proof. destruct v; cbn; intros H; try discriminate; reflexivity. Qed.

(** C1: a reply whose result is a mapping with the empty-result status of
    the call is a success with an empty result, whatever error object the
    same reply carries: [participants] returns the empty list and
    [responses] the empty response set. *)
Theorem sentinel_is_success (self : t) (survey arg : pyval) (w w' : world)
    (result error : pyval) :
  (( (rq <- _request "list_participants"
             [key self; survey; PInt 0; PInt 5000; PBool false; arg] ;
      _post server rq) w = (Ok (result, error), w') ->
    getitem result "status" = Ok (PStr "No Tokens found") ->
    participants server self survey arg w = (Ok (PList []), w'))
   /\
   ( (rq <- _request "export_responses"
             [key self; survey; PStr "json"; PStr "fr"; arg] ;
      _post server rq) w = (Ok (result, error), w') ->
    getitem result "status" = Ok (PStr "No Data, could not get max id.") ->
    responses server export_decode self survey arg w
    = (Ok (PDict [(KStr "responses", PList [])]), w'))).
Proof.
  split; intros Hpost Hstatus.
  - unfold participants.
    apply error2exception_no_error with (error := PNone).
    + unfold bind in *.
      destruct (_request _ _ w) as [[rq|e] w1]; [|discriminate].
      rewrite Hpost. cbn. rewrite Hstatus. cbn.
      destruct error; reflexivity.
    + reflexivity.
  - unfold responses.
    apply error2exception_no_error with (error := PNone).
    + unfold bind in *.
      destruct (_request _ _ w) as [[rq|e] w1]; [|discriminate].
      rewrite Hpost. cbn.
      rewrite (decode_export_not_str _ _ Hstatus), Hstatus. cbn.
      destruct error; reflexivity.
    + reflexivity.
Qed.

End Normalizer.

(** ** The requests a computation posts *)

Lemma only_posts_ret {A} (a : A) P : only_posts (ret a) P.
Proof. intros w. exists []. cbn. rewrite app_nil_r. auto. Qed.

Lemma only_posts_raise {A} e P : only_posts (@raise A e) P.
Proof. intros w. exists []. cbn. rewrite app_nil_r. auto. Qed.

Lemma only_posts_lift {A} (r : result A) P : only_posts (lift r) P.
Proof. intros w. exists []. cbn. rewrite app_nil_r. auto. Qed.

Lemma only_posts_bind {A B} (m : M A) (k : A -> M B) P :
  only_posts m P -> (forall a, only_posts (k a) P) -> only_posts (bind m k) P.
Proof.
  intros Hm Hk w. unfold bind.
  destruct (Hm w) as (d1 & E1 & F1).
  destruct (m w) as [[a|e] w1]; cbn in *.
  - destruct (Hk a w1) as (d2 & E2 & F2).
    exists (d1 ++ d2). rewrite E2, E1, app_assoc. split; [reflexivity|].
    apply Forall_app; auto.
  - exists d1. auto.
Qed.

Lemma only_posts_for_each {A} (body : A -> M unit) (l : list A) P :
  (forall x, only_posts (body x) P) -> only_posts (for_each body l) P.
Proof.
  intros Hb. induction l as [|x l IH]; cbn.
  - apply only_posts_ret.
  - apply only_posts_bind; auto.
Qed.

Lemma only_posts_save path data P : only_posts (save path data) P.
Proof.
  intros w. exists []. rewrite app_nil_r. split; [|constructor].
  unfold save, write_file, ret.
  destruct (fs w !! path) as [old|]; [destruct (String.eqb old data)|];
    reflexivity.
Qed.

Section Requests.

Variable server : list request -> request -> reply.
Variable export_decode : string -> option pyval.

Import LimeSurveySession.

Lemma post_json_sent rq w :
  sent (snd (post_json server rq w)) = sent w ++ [rq].
Proof. unfold post_json. destruct (server (sent w) rq); reflexivity. Qed.

Lemma _post_sent rq w :
  sent (snd (_post server rq w)) = sent w ++ [rq].
Proof.
  unfold _post, bind, lift, ret, raise.
  pose proof (post_json_sent rq w) as H.
  destruct (post_json server rq w) as [[response|e] w1]; cbn in *; [|exact H].
  destruct (getitem response "id") as [id|]; cbn; [|exact H].
  destruct (eq_int id (req_id rq)); cbn; [|exact H].
  destruct (getitem response "result"); cbn; [|exact H].
  destruct (getitem response "error"); cbn; exact H.
Qed.

Lemma call_sent method params w :
  sent (snd ((rq <- _request method params ; _post server rq) w))
  = sent w ++ [next_request w method params].
Proof.
  unfold bind, _request, _generate_request_id, ret. cbn.
  now rewrite _post_sent.
Qed.

Lemma error2exception_world (func : M (pyval * pyval)) w :
  snd (error2exception func w) = snd (func w).
Proof.
  unfold error2exception, bind.
  destruct (func w) as [[[response error]|e] w1]; cbn; [|reflexivity].
  destruct (truthy error); [|reflexivity].
  destruct (rbind _ _) as [[message code]|e]; [reflexivity|].
  destruct (caught_TypeError_KeyError e); reflexivity.
Qed.

Lemma bind_world_same {A B} (m : M A) (k : A -> M B) w :
  (forall a w1, snd (k a w1) = w1) -> snd (bind m k w) = snd (m w).
Proof.
  intros Hk. unfold bind. destruct (m w) as [[a|e] w1]; cbn; [apply Hk|reflexivity].
Qed.

Lemma call_bind_world {B} method params (k : pyval * pyval -> M B) w :
  (forall a w1, snd (k a w1) = w1) ->
  snd ((rq <- _request method params ; x <- _post server rq ; k x) w)
  = snd ((rq <- _request method params ; _post server rq) w).
Proof.
  intros Hk. unfold bind at 1 3.
  destruct (_request method params w) as [[rq|e] w1]; [|reflexivity].
  apply bind_world_same, Hk.
Qed.

Lemma surveys_sent self w :
  sent (snd (surveys server self w))
  = sent w ++ [next_request w "list_surveys" [key self]].
Proof. unfold surveys. rewrite error2exception_world. apply call_sent. Qed.

Lemma participants_sent self survey attributes w :
  sent (snd (participants server self survey attributes w))
  = sent w ++ [next_request w "list_participants"
                 [key self; survey; PInt 0; PInt 5000; PBool false; attributes]].
Proof.
  unfold participants. rewrite error2exception_world.
  rewrite call_bind_world; [apply call_sent|].
  intros [responses error] w1.
  destruct (getitem responses "status") as [status|e].
  - destruct (eq_str status "No Tokens found"); reflexivity.
  - destruct (caught_TypeError_KeyError e); reflexivity.
Qed.

Lemma responses_sent self survey status w :
  sent (snd (responses server export_decode self survey status w))
  = sent w ++ [next_request w "export_responses"
                 [key self; survey; PStr "json"; PStr "fr"; status]].
Proof.
  unfold responses. rewrite error2exception_world.
  rewrite call_bind_world; [apply call_sent|].
  intros [responses error] w1.
  destruct (decode_export export_decode responses) as [decoded|[]]; reflexivity.
Qed.

End Requests.

(** ** Pagination of [participants] *)

Lemma dict_set_length d k v :
  (length (dict_set d k v) <= S (length d))%nat.
Proof.
  induction d as [|[k' v'] d IH]; cbn; [lia|].
  destruct (key_eqb k' k); cbn; lia.
Qed.

Lemma dict_set_keys d k v k0 :
  In k0 (map fst (dict_set d k v)) -> k0 = k \/ In k0 (map fst d).
Proof.
  induction d as [|[k' v'] d IH]; cbn.
  - intros [H|[]]; auto.
  - destruct (key_eqb k' k); cbn; intros [H|H]; auto.
    destruct (IH H); auto.
Qed.

Lemma index_participants_bound ps : forall acc m,
  index_participants ps acc = Ok m ->
  (length m <= length acc + length ps)%nat /\
  forall k, In k (map fst m) ->
    In k (map fst acc) \/
    exists p token, In p ps /\ getitem p "token" = Ok token /\ to_key token = Ok k.
Proof.
  induction ps as [|p ps IH]; cbn; intros acc m H.
  - injection H as <-. split; [lia|auto].
  - destruct (getitem p "tid") as [tid|]; cbn in H; [|discriminate].
    destruct (getitem p "token") as [token|] eqn:Et; cbn in H; [|discriminate].
    destruct (getitem p "attribute_1") as [psc1|]; cbn in H; [|discriminate].
    destruct (to_key token) as [k|] eqn:Ek; cbn in H; [|discriminate].
    destruct (IH _ _ H) as [Hlen Hkeys]. split.
    + pose proof (dict_set_length acc k psc1). lia.
    + intros k0 Hin. destruct (Hkeys k0 Hin) as [Hacc|(p' & t' & Hp & Ht & Hk)].
      * destruct (dict_set_keys _ _ _ _ Hacc) as [->|Hold]; [|auto].
        right. exists p, token. auto.
      * right. exists p', t'. auto.
Qed.

Section Pagination.

Variable server : list request -> request -> reply.

Import LimeSurveySession.

(** C10: a call of [participants] posts one request, for the positions 0 to
    5000 of the participant list, and no other; the token-to-identifier
    mapping is built from the participants of that one reply, so it has an
    entry for 5000 of them at most when the service honours the limit. *)
Theorem participants_single_fixed_page (self : t) (survey attributes : pyval)
    (w : world) :
  sent (snd (participants server self survey attributes w))
  = sent w ++ [{| req_id := request_id w + 1;
                  req_method := "list_participants";
                  req_params := [key self; survey; PInt 0; PInt 5000;
                                 PBool false; attributes] |}]
  /\
  forall ps m, index_participants ps [] = Ok m ->
    ((length ps <= 5000)%nat -> (length m <= 5000)%nat) /\
    forall k, In k (map fst m) ->
      exists p token, In p ps /\ getitem p "token" = Ok token /\ to_key token = Ok k.
Proof.
  split; [apply participants_sent|].
  intros ps m H. destruct (index_participants_bound _ _ _ H) as [Hlen Hkeys].
  split; [cbn in Hlen; lia|].
  intros k Hin. destruct (Hkeys k Hin) as [[]|Hp]. exact Hp.
Qed.

End Pagination.

Lemma participants_single_fixed_page_witness :
  index_participants [PDict [(KStr "tid", PInt 1); (KStr "token", PStr "abc");
                             (KStr "attribute_1", PStr "PSC001")]] []
  = Ok [(KStr "abc", PStr "PSC001")]
  /\ (length [(KStr "abc", PStr "PSC001")] <= 5000)%nat.
Proof.
  split; [reflexivity|].
  pose proof (participants_single_fixed_page
                (fun _ _ => NoReply)
                {| LimeSurveySession.url := "u"; LimeSurveySession.key := PNone |}
                PNone PNone fresh) as [_ H].
  destruct (H [PDict [(KStr "tid", PInt 1); (KStr "token", PStr "abc");
                      (KStr "attribute_1", PStr "PSC001")]]
              [(KStr "abc", PStr "PSC001")] eq_refl) as [Hlen _].
  apply Hlen. cbn. lia.
Defined.

(** ** Session states *)

Lemma only_posts_one {A} (m : M A) (P : request -> Prop) (rq : world -> request) :
  (forall w, sent (snd (m w)) = sent w ++ [rq w]) ->
  (forall w, P (rq w)) ->
  only_posts m P.
Proof. intros Hs HP w. exists [rq w]. split; [apply Hs|]. constructor; auto. Qed.

Lemma only_posts_finally {A} (m : M A) (h : M unit) P :
  only_posts m P -> only_posts h P -> only_posts (finally m h) P.
Proof.
  intros Hm Hh w. unfold finally.
  destruct (Hm w) as (d1 & E1 & F1).
  destruct (m w) as [r w1]; cbn in *.
  destruct (Hh w1) as (d2 & E2 & F2).
  exists (d1 ++ d2). split; [|apply Forall_app; auto].
  destruct (h w1) as [[[]|e] w2]; cbn in *; now rewrite E2, E1, app_assoc.
Qed.

Section States.

Variable server : list request -> request -> reply.
Variable export_decode : string -> option pyval.

Import LimeSurveySession.

Lemma _get_session_key_world username password w :
  snd (_get_session_key server username password w)
  = snd ((rq <- _request "get_session_key" [username; password] ;
          _post server rq) w).
Proof.
  unfold _get_session_key. apply call_bind_world.
  intros [response error] w1.
  destruct (getitem response "status") as [status|e]; [reflexivity|].
  destruct (caught_TypeError_KeyError e); [|reflexivity].
  destruct (negb (is_none error)); reflexivity.
Qed.

Lemma __init___sent url username password w :
  sent (snd (__init__ server url username password w))
  = sent w ++ [next_request w "get_session_key" [username; password]].
Proof.
  unfold __init__. rewrite bind_world_same by reflexivity.
  rewrite _get_session_key_world. apply call_sent.
Qed.

Lemma close_sent self w :
  sent (snd (close server self w))
  = sent w ++ [next_request w "release_session_key" [key self]].
Proof.
  unfold close, _release_session_key.
  rewrite bind_world_same by reflexivity.
  rewrite call_bind_world by reflexivity. apply call_sent.
Qed.

Lemma download_survey_only_posts session survey P :
  (forall w params, P (next_request w "list_participants" params)) ->
  (forall w params, P (next_request w "export_responses" params)) ->
  only_posts (download_survey server export_decode session survey) P.
Proof.
  intros Hp He. unfold download_survey.
  apply only_posts_bind; [apply only_posts_lift|intros title].
  apply only_posts_bind; [apply only_posts_lift|intros sid].
  apply only_posts_bind; [|intros participants].
  { eapply only_posts_one; [intros w; apply participants_sent|].
    intros; apply Hp. }
  apply only_posts_bind; [apply only_posts_lift|intros ps].
  apply only_posts_bind; [apply only_posts_lift|intros psc1_from_token].
  apply only_posts_bind; [|intros responses].
  { eapply only_posts_one; [intros w; apply responses_sent|].
    intros; apply He. }
  apply only_posts_bind; [apply only_posts_lift|intros responses'].
  apply only_posts_bind; [apply only_posts_lift|intros data].
  apply only_posts_bind; [apply only_posts_lift|intros psytools_path].
  apply only_posts_save.
Qed.

Lemma synchronise_only_posts session P :
  (forall w params, P (next_request w "list_surveys" params)) ->
  (forall w params, P (next_request w "list_participants" params)) ->
  (forall w params, P (next_request w "export_responses" params)) ->
  only_posts (surveys <- surveys server session ;
              l <- lift (iterate surveys) ;
              for_each (download_survey server export_decode session) l) P.
Proof.
  intros Hs Hp He.
  apply only_posts_bind; [|intros l0].
  - eapply only_posts_one; [intros w; apply surveys_sent|]. intros; apply Hs.
  - apply only_posts_bind; [apply only_posts_lift|intros l].
    apply only_posts_for_each. intros x.
    now apply download_survey_only_posts.
Qed.

(** C9, as the code has it: the operations test no session state.  Whatever
    key the session object holds, [None] included (a session that has been
    closed, or one whose authentication failed), each of them posts its
    request with that key. *)
Theorem operations_post_in_every_state (self : t) (survey arg : pyval) (w : world) :
  sent (snd (surveys server self w))
  = sent w ++ [{| req_id := request_id w + 1; req_method := "list_surveys";
                  req_params := [key self] |}]
  /\
  sent (snd (participants server self survey arg w))
  = sent w ++ [{| req_id := request_id w + 1; req_method := "list_participants";
                  req_params := [key self; survey; PInt 0; PInt 5000;
                                 PBool false; arg] |}]
  /\
  sent (snd (responses server export_decode self survey arg w))
  = sent w ++ [{| req_id := request_id w + 1; req_method := "export_responses";
                  req_params := [key self; survey; PStr "json"; PStr "fr"; arg] |}].
Proof.
  split; [apply surveys_sent|].
  split; [apply participants_sent|apply responses_sent].
Qed.



End States.

(** ** Files *)

Lemma keeps_files_ret {A} (a : A) : keeps_files (ret a).
Proof. intros w. split; reflexivity. Qed.

Lemma keeps_files_lift {A} (r : result A) : keeps_files (lift r).
Proof. intros w. split; reflexivity. Qed.

Lemma keeps_files_bind {A B} (m : M A) (k : A -> M B) :
  keeps_files m -> (forall a, keeps_files (k a)) -> keeps_files (bind m k).
Proof.
  intros Hm Hk w. unfold bind. destruct (Hm w) as [F1 W1].
  destruct (m w) as [[a|e] w1]; cbn in *; [|auto].
  destruct (Hk a w1) as [F2 W2]. rewrite F2, W2. auto.
Qed.

Section Files.

Variable server : list request -> request -> reply.
Variable export_decode : string -> option pyval.

Import LimeSurveySession.

Lemma call_keeps_files method params :
  keeps_files (rq <- _request method params ; _post server rq).
Proof.
  apply keeps_files_bind; [intros w; split; reflexivity|intros rq].
  unfold _post.
  apply keeps_files_bind.
  - intros w. unfold post_json. destruct (server (sent w) rq); split; reflexivity.
  - intros response. apply keeps_files_bind; [apply keeps_files_lift|intros id].
    destruct (eq_int id (req_id rq)); [|intros w; split; reflexivity].
    apply keeps_files_bind; [apply keeps_files_lift|intros result].
    apply keeps_files_bind; [apply keeps_files_lift|intros error].
    apply keeps_files_ret.
Qed.

Lemma keeps_files_world {A B} (m : M A) (m' : M B) :
  (forall w, snd (m w) = snd (m' w)) -> keeps_files m' -> keeps_files m.
Proof. intros E H w. rewrite E. apply H. Qed.

Lemma participants_keeps_files self survey attributes :
  keeps_files (participants server self survey attributes).
Proof.
  eapply keeps_files_world; [|apply (call_keeps_files "list_participants")].
  intros w. unfold participants. rewrite error2exception_world.
  apply call_bind_world. intros [responses error] w1.
  destruct (getitem responses "status") as [status|e].
  - destruct (eq_str status "No Tokens found"); reflexivity.
  - destruct (caught_TypeError_KeyError e); reflexivity.
Qed.

Lemma responses_keeps_files self survey status :
  keeps_files (responses server export_decode self survey status).
Proof.
  eapply keeps_files_world; [|apply (call_keeps_files "export_responses")].
  intros w. unfold responses. rewrite error2exception_world.
  apply call_bind_world. intros [responses error] w1.
  destruct (decode_export export_decode responses) as [decoded|[]]; reflexivity.
Qed.

Lemma close_keeps_files self : keeps_files (close server self).
Proof.
  eapply keeps_files_world; [|apply (call_keeps_files "release_session_key")].
  intros w. unfold close, _release_session_key.
  rewrite bind_world_same by reflexivity.
  now rewrite call_bind_world by reflexivity.
Qed.

(** What a pass through the body of the loop, lines 251-296, amounts to:
    it raises before it has touched a file, or it reaches the comparison
    with the file at the path derived from the title, with the
    serialisation of the re-keyed export in hand. *)
Lemma download_survey_cases session survey w :
  (exists e w',
      download_survey server export_decode session survey w = (Raise e, w')
      /\ fs w' = fs w /\ written w' = written w)
  \/
  (exists title responses' psytools_path data w1,
      getitem survey "surveyls_title" = Ok title
      /\ psytools_path_of title = Ok psytools_path
      /\ dumps responses' = Ok data
      /\ fs w1 = fs w /\ written w1 = written w
      /\ download_survey server export_decode session survey w
         = save psytools_path data w1).
Proof.
  unfold download_survey, bind, lift.
  destruct (getitem survey "surveyls_title") as [title|e]; [|left; eauto].
  destruct (getitem survey "sid") as [sid|e]; [|left; eauto].
  destruct (participants_keeps_files session sid (PList [PStr "attribute_1"]) w)
    as [F1 W1].
  destruct (participants server session sid _ w) as [[participants|e] w1];
    cbn in F1, W1; [|left; eauto].
  destruct (iterate participants) as [ps|e]; [|left; eauto].
  destruct (index_participants ps []) as [psc1_from_token|e]; [|left; eauto].
  destruct (responses_keeps_files session sid (PStr "all") w1) as [F2 W2].
  destruct (responses server export_decode session sid _ w1) as [[responses|e] w2];
    cbn in F2, W2; rewrite F1 in F2; rewrite W1 in W2; [|left; eauto].
  destruct (rekey psc1_from_token responses) as [responses'|e]; [|left; eauto].
  destruct (dumps responses') as [data|e] eqn:Ed; [|left; eauto].
  destruct (psytools_path_of title) as [psytools_path|e] eqn:Ep; [|left; eauto].
  right. exists title, responses', psytools_path, data, w2. auto 10.
Qed.

Lemma save_ok path data w : exists w', save path data w = (Ok tt, w').
Proof.
  unfold save, write_file, ret.
  destruct (fs w !! path) as [old|]; [destruct (String.eqb old data)|]; eauto.
Qed.

Lemma download_survey_failure_keeps_files session survey w e w' :
  download_survey server export_decode session survey w = (Raise e, w') ->
  fs w' = fs w /\ written w' = written w.
Proof.
  intros H.
  destruct (download_survey_cases session survey w)
    as [(e0 & w0 & E & F & W)|(t & r & p & d & w1 & _ & _ & _ & _ & _ & E)].
  - rewrite H in E. injection E as <- <-. auto.
  - rewrite H in E. destruct (save_ok p d w1) as [w2 E2]. congruence.
Qed.


End Files.

(** ** The run: release of the session key, failures *)

Lemma releases_none l : Forall not_release l -> releases l = 0%nat.
Proof.
  unfold releases. induction 1 as [|rq l H _ IH]; [reflexivity|].
  cbn. now rewrite H.
Qed.

Lemma releases_app l1 l2 : releases (l1 ++ l2) = (releases l1 + releases l2)%nat.
Proof. unfold releases. now rewrite filter_app, length_app. Qed.

Lemma for_each_app {A} (body : A -> M unit) (l1 l2 : list A) w :
  for_each body (l1 ++ l2) w
  = (_ <- for_each body l1 ; for_each body l2) w.
Proof.
  revert w. induction l1 as [|x l1 IH]; intros w; cbn; [reflexivity|].
  unfold bind. destruct (body x w) as [[[]|e] w1]; [|reflexivity].
  rewrite IH. reflexivity.
Qed.

Section Run.

Variable server : list request -> request -> reply.
Variable export_decode : string -> option pyval.

Import LimeSurveySession.

(** C5: in a run whose session has been created, the release of the key
    is requested exactly once, and it is the last request of the run,
    whether the surveys were all processed or an exception of [surveys],
    [participants], [responses] or of any other step ended the loop. *)
Theorem release_exactly_once (url : string) (username password : pyval)
    (w w0 : world) (session : t) :
  __init__ server url username password w = (Ok session, w0) ->
  exists before id,
    sent (snd (download_json server export_decode url
                 (Some (username, password)) w))
    = sent w ++ before
      ++ [{| req_id := id; req_method := "release_session_key";
             req_params := [key session] |}]
    /\ releases before = 0%nat
    /\ releases (before ++ [{| req_id := id;
                               req_method := "release_session_key";
                               req_params := [key session] |}]) = 1%nat.
Proof.
  intros Hinit.
  pose proof (__init___sent server url username password w) as Hs0.
  rewrite Hinit in Hs0. cbn in Hs0.
  unfold download_json, bind at 1. rewrite Hinit. unfold finally.
  destruct (synchronise_only_posts server export_decode session not_release
              (fun _ _ => eq_refl) (fun _ _ => eq_refl) (fun _ _ => eq_refl) w0)
    as (d & Ed & Fd).
  destruct (bind (surveys server session) _ w0) as [r w1]; cbn in Ed.
  pose proof (close_sent server session w1) as Hc.
  assert (Hsent : sent (snd (bind (close server session) (fun _ => ret tt) w1))
                  = sent w1 ++ [next_request w1 "release_session_key" [key session]]).
  { unfold bind. destruct (close server session w1) as [[s'|e] w2]; exact Hc. }
  exists (next_request w "get_session_key" [username; password] :: d),
         (request_id w1 + 1).
  assert (Hb : releases (next_request w "get_session_key" [username; password] :: d)
               = 0%nat).
  { apply releases_none. constructor; [reflexivity|exact Fd]. }
  split; [|split; [exact Hb|]].
  - destruct (bind (close server session) _ w1) as [[[]|e] w2]; cbn in *;
      rewrite Hsent, Ed, Hs0, <- !app_assoc; reflexivity.
  - rewrite releases_app, Hb. reflexivity.
Qed.

(** C2, as the code has it: the loop over the surveys catches nothing.  An
    exception raised while a survey is processed ends the loop: the surveys
    after it are not processed, and the exception leaves [download_json]
    once the session key has been released (an exception of the release
    takes its place).  The files are as the surveys before it left them. *)
Theorem survey_failure_ends_run (url : string) (username password : pyval)
    (w w0 w1 w2 w3 : world) (session : t) (listed : pyval)
    (before after : list pyval) (survey : pyval) (e : exn) :
  __init__ server url username password w = (Ok session, w0) ->
  surveys server session w0 = (Ok listed, w1) ->
  iterate listed = Ok (before ++ survey :: after) ->
  for_each (download_survey server export_decode session) before w1 = (Ok tt, w2) ->
  download_survey server export_decode session survey w2 = (Raise e, w3) ->
  for_each (download_survey server export_decode session)
    (before ++ survey :: after) w1 = (Raise e, w3)
  /\
  download_json server export_decode url (Some (username, password)) w
  = match close server session w3 with
    | (Ok _, w4) => (Raise e, w4)
    | (Raise e', w4) => (Raise e', w4)
    end
  /\
  fs (snd (download_json server export_decode url (Some (username, password)) w))
  = fs w2
  /\
  written (snd (download_json server export_decode url
                  (Some (username, password)) w))
  = written w2.
Proof.
  intros Hinit Hsurveys Hiter Hbefore Hfail.
  assert (Hloop : for_each (download_survey server export_decode session)
                    (before ++ survey :: after) w1 = (Raise e, w3)).
  { rewrite for_each_app. unfold bind at 1. rewrite Hbefore. cbn.
    unfold bind at 1. now rewrite Hfail. }
  assert (Hrun : download_json server export_decode url
                   (Some (username, password)) w
                 = match close server session w3 with
                   | (Ok _, w4) => (Raise e, w4)
                   | (Raise e', w4) => (Raise e', w4)
                   end).
  { unfold download_json, bind at 1. rewrite Hinit. unfold finally.
    unfold bind at 1. rewrite Hsurveys. unfold bind at 1, lift at 1.
    rewrite Hiter, Hloop. unfold bind, ret.
    destruct (close server session w3) as [[s'|e'] w4]; reflexivity. }
  split; [exact Hloop|]. split; [exact Hrun|].
  destruct (download_survey_failure_keeps_files _ _ _ _ _ _ _ Hfail) as [F W].
  destruct (close_keeps_files server session w3) as [Fc Wc].
  rewrite Hrun.
  destruct (close server session w3) as [[s'|e'] w4]; cbn in *;
    rewrite Fc, Wc, F, W; auto.
Qed.

End Run.

(** ** Re-keying *)

Lemma rekey_items_unmapped psc1_from_token kvs k v token e0 :
  In (k, v) kvs ->
  getitem v "token" = Ok token ->
  dict_getitem psc1_from_token token = Raise e0 ->
  forall acc, exists e, rekey_items psc1_from_token kvs acc = Raise e.
Proof.
  intros Hin Ht Hm. induction kvs as [|[k1 v1] kvs IH]; [destruct Hin|].
  intros acc. cbn.
  destruct Hin as [Heq|Hin].
  - injection Heq as -> ->. rewrite Ht. cbn. rewrite Hm. cbn. eauto.
  - destruct (getitem v1 "token") as [t1|]; cbn; [|eauto].
    destruct (dict_getitem psc1_from_token t1) as [p1|]; cbn; [|eauto].
    destruct (to_key p1) as [k'|]; cbn; [|eauto].
    apply IH, Hin.
Qed.

Lemma rekey_records_unmapped psc1_from_token rs r kvs k v token e0 :
  In r rs ->
  items r = Ok kvs ->
  In (k, v) kvs ->
  getitem v "token" = Ok token ->
  dict_getitem psc1_from_token token = Raise e0 ->
  exists e, rekey_records psc1_from_token rs = Raise e.
Proof.
  intros Hin Hi Hkv Ht Hm. induction rs as [|r1 rs IH]; [destruct Hin|].
  cbn. destruct Hin as [->|Hin].
  - unfold rekey_record. rewrite Hi. cbn.
    destruct (rekey_items_unmapped _ _ _ _ _ _ Hkv Ht Hm []) as [e ->].
    cbn. eauto.
  - destruct (rekey_record psc1_from_token r1) as [r1'|]; cbn; [|eauto].
    destruct (IH Hin) as [e ->]. cbn. eauto.
Qed.

Lemma rekey_unmapped psc1_from_token responses records rs r kvs k v token e0 :
  getitem responses "responses" = Ok records ->
  iterate records = Ok rs ->
  In r rs ->
  items r = Ok kvs ->
  In (k, v) kvs ->
  getitem v "token" = Ok token ->
  dict_getitem psc1_from_token token = Raise e0 ->
  exists e, rekey psc1_from_token responses = Raise e.
Proof.
  intros Hg Hit Hin Hi Hkv Ht Hm. unfold rekey.
  destruct responses; try discriminate. cbn in Hg |- *.
  destruct (dict_get d (KStr "responses")); [|discriminate].
  injection Hg as ->. cbn. rewrite Hit. cbn.
  destruct (rekey_records_unmapped _ _ _ _ _ _ _ _ Hin Hi Hkv Ht Hm) as [e ->].
  cbn. eauto.
Qed.

Section Rekeying.

Variable server : list request -> request -> reply.
Variable export_decode : string -> option pyval.

Import LimeSurveySession.

(** C3, as the code has it: no record is dropped.  When the export holds a
    record whose token has no entry in the mapping built from the
    participants, the lookup raises, the exception leaves the body of the
    loop, and nothing is written for the survey: no file is created or
    changed. *)
Theorem unmapped_token_fails_survey (session : t) (survey : pyval)
    (w w1 w2 : world) (title sid participants responses records : pyval)
    (ps rs : list pyval) (psc1_from_token kvs : list (pykey * pyval))
    (r v token : pyval) (k : pykey) :
  getitem survey "surveyls_title" = Ok title ->
  getitem survey "sid" = Ok sid ->
  LimeSurveySession.participants server session sid (PList [PStr "attribute_1"]) w
  = (Ok participants, w1) ->
  iterate participants = Ok ps ->
  index_participants ps [] = Ok psc1_from_token ->
  LimeSurveySession.responses server export_decode session sid (PStr "all") w1
  = (Ok responses, w2) ->
  getitem responses "responses" = Ok records ->
  iterate records = Ok rs ->
  In r rs ->
  items r = Ok kvs ->
  In (k, v) kvs ->
  getitem v "token" = Ok token ->
  dict_getitem psc1_from_token token = Raise KeyError ->
  exists e,
    download_survey server export_decode session survey w = (Raise e, w2)
    /\ fs w2 = fs w /\ written w2 = written w.
Proof.
  intros Htitle Hsid Hp Hps Hix Hr Hrec Hrs Hin Hit Hkv Htok Hmiss.
  destruct (rekey_unmapped _ _ _ _ _ _ _ _ _ _ Hrec Hrs Hin Hit Hkv Htok Hmiss)
    as [e He].
  assert (E : download_survey server export_decode session survey w = (Raise e, w2)).
  { unfold download_survey, bind, lift.
    rewrite Htitle, Hsid, Hp, Hps, Hix, Hr, He. reflexivity. }
  exists e. split; [exact E|].
  eapply download_survey_failure_keeps_files, E.
Qed.

End Rekeying.

(** ** Concrete runs *)

Section ConcreteRuns.

Import LimeSurveySession Examples.

Lemma sentinel_is_success_witness :
  participants (scripted conflicting_reports) open_session (PInt 1)
    (PList [PStr "attribute_1"]) fresh
  = (Ok (PList []),
     snd (participants (scripted conflicting_reports) open_session (PInt 1)
            (PList [PStr "attribute_1"]) fresh))
  /\
  responses (scripted conflicting_reports) decoder open_session (PInt 1)
    (PStr "all") fresh
  = (Ok (PDict [(KStr "responses", PList [])]),
     snd (responses (scripted conflicting_reports) decoder open_session (PInt 1)
            (PStr "all") fresh)).
Proof.
  split.
  - apply (proj1 (sentinel_is_success (scripted conflicting_reports) decoder
                    open_session (PInt 1) (PList [PStr "attribute_1"]) fresh _
                    (PDict [(KStr "status", PStr "No Tokens found")])
                    (PDict [(KStr "code", PInt (-32000));
                            (KStr "message", PStr "No Tokens found")]))).
    + vm_compute. reflexivity.
    + reflexivity.
  - apply (proj2 (sentinel_is_success (scripted conflicting_reports) decoder
                    open_session (PInt 1) (PStr "all") fresh _
                    (PDict [(KStr "status", PStr "No Data, could not get max id.")])
                    (PDict [(KStr "code", PInt (-32000));
                            (KStr "message", PStr "No Data")]))).
    + vm_compute. reflexivity.
    + reflexivity.
Defined.

(** The run of the specification's example stops in the re-keying: the
    record holds no "token" to look up.  Nothing is written. *)
Lemma spec_example_writes_nothing :
  fst (run spec_example fresh) = Raise KeyError
  /\ written (snd (run spec_example fresh)) = []
  /\ fs (snd (run spec_example fresh)) !! baseline_path = None.
Proof. vm_compute. auto. Qed.

(** C7, with the record carrying its token: the run writes
    T1-Baseline.json under the master directory, holding the serialisation
    of the export re-keyed to PSC001, and a second run on the files the
    first one left writes nothing. *)
Theorem service_example_run :
  psytools_path_of (PStr "T1 - Baseline") = Ok baseline_path
  /\ fst (run service_example fresh) = Ok tt
  /\ (exists data,
        dumps rekeyed_export = Ok data
        /\ fs (snd (run service_example fresh)) !! baseline_path = Some data
        /\ written (snd (run service_example fresh)) = [(baseline_path, data)])
  /\ fst (run service_example (snd (run service_example fresh))) = Ok tt
  /\ written (snd (run service_example (snd (run service_example fresh))))
     = written (snd (run service_example fresh))
  /\ fs (snd (run service_example (snd (run service_example fresh))))
     = fs (snd (run service_example fresh)).
Proof.
  split; [reflexivity|]. split; [vm_compute; reflexivity|]. split.
  - eexists. split; [vm_compute; reflexivity|].
    split; vm_compute; reflexivity.
  - split; [vm_compute; reflexivity|]. split; vm_compute; reflexivity.
Qed.

(** One record with an unknown token: the run stops with KeyError and the
    record with the known token is not written either. *)
Lemma unknown_token_stops_survey :
  fst (run unknown_token_example fresh) = Raise KeyError
  /\ written (snd (run unknown_token_example fresh)) = []
  /\ fs (snd (run unknown_token_example fresh)) !! baseline_path = None.
Proof. vm_compute. auto. Qed.

Lemma unmapped_token_fails_survey_witness :
  exists e,
    download_survey (scripted unknown_token_example) decoder open_session
      (survey_row 1 "T1 - Baseline") fresh
    = (Raise e,
       snd (responses (scripted unknown_token_example) decoder open_session
              (PInt 1) (PStr "all")
              (snd (participants (scripted unknown_token_example) open_session
                      (PInt 1) (PList [PStr "attribute_1"]) fresh))))
    /\ fs (snd (responses (scripted unknown_token_example) decoder open_session
                  (PInt 1) (PStr "all")
                  (snd (participants (scripted unknown_token_example) open_session
                          (PInt 1) (PList [PStr "attribute_1"]) fresh))))
       = fs fresh
    /\ written (snd (responses (scripted unknown_token_example) decoder
                       open_session (PInt 1) (PStr "all")
                       (snd (participants (scripted unknown_token_example)
                               open_session (PInt 1)
                               (PList [PStr "attribute_1"]) fresh))))
       = written fresh.
Proof.
  apply (unmapped_token_fails_survey (scripted unknown_token_example) decoder
           open_session (survey_row 1 "T1 - Baseline") fresh
           (snd (participants (scripted unknown_token_example) open_session
                   (PInt 1) (PList [PStr "attribute_1"]) fresh))
           _
           (PStr "T1 - Baseline") (PInt 1)
           (PList [participant_row 1 "abc" "PSC001"])
           export_unknown_token
           (PList [PDict [(KStr "1", PDict [(KStr "q1", PStr "5");
                                            (KStr "token", PStr "abc")])];
                   PDict [(KStr "2", PDict [(KStr "q1", PStr "3");
                                            (KStr "token", PStr "zzz")])]])
           [participant_row 1 "abc" "PSC001"]
           [PDict [(KStr "1", PDict [(KStr "q1", PStr "5");
                                     (KStr "token", PStr "abc")])];
            PDict [(KStr "2", PDict [(KStr "q1", PStr "3");
                                     (KStr "token", PStr "zzz")])]]
           [(KStr "abc", PStr "PSC001")]
           [(KStr "2", PDict [(KStr "q1", PStr "3"); (KStr "token", PStr "zzz")])]
           (PDict [(KStr "2", PDict [(KStr "q1", PStr "3");
                                     (KStr "token", PStr "zzz")])])
           (PDict [(KStr "q1", PStr "3"); (KStr "token", PStr "zzz")])
           (PStr "zzz") (KStr "2")).
  - reflexivity.
  - reflexivity.
  - vm_compute. reflexivity.
  - reflexivity.
  - reflexivity.
  - vm_compute. reflexivity.
  - reflexivity.
  - reflexivity.
  - right. left. reflexivity.
  - reflexivity.
  - left. reflexivity.
  - reflexivity.
  - reflexivity.
Defined.

(** The first of two surveys fails: the run ends with its error, the second
    survey, which would have gone through, is never asked for, and no file
    is written. *)
Lemma first_failure_stops_run :
  fst (run first_survey_fails fresh)
  = Raise (LimeSurveyError (PStr "Error: No survey participants table")
                           (PInt (-32099)))
  /\ methods (snd (run first_survey_fails fresh))
     = ["get_session_key"; "list_surveys"; "list_participants";
        "release_session_key"]
  /\ written (snd (run first_survey_fails fresh)) = []
  /\ fst (download_survey (scripted first_survey_fails) decoder open_session
            (survey_row 2 "B") fresh) = Ok tt.
Proof. vm_compute. auto. Qed.

Lemma survey_failure_ends_run_witness :
  fs (snd (run first_survey_fails fresh)) = fs fresh
  /\ written (snd (run first_survey_fails fresh)) = written fresh.
Proof.
  pose proof (survey_failure_ends_run (scripted first_survey_fails) decoder
                JSON_BASE_URL user password fresh
                (snd (__init__ (scripted first_survey_fails) JSON_BASE_URL
                        user password fresh))
                (snd (surveys (scripted first_survey_fails) open_session
                        (snd (__init__ (scripted first_survey_fails)
                                JSON_BASE_URL user password fresh))))
                (snd (surveys (scripted first_survey_fails) open_session
                        (snd (__init__ (scripted first_survey_fails)
                                JSON_BASE_URL user password fresh))))
                (snd (download_survey (scripted first_survey_fails) decoder
                        open_session (survey_row 1 "A")
                        (snd (surveys (scripted first_survey_fails) open_session
                                (snd (__init__ (scripted first_survey_fails)
                                        JSON_BASE_URL user password fresh))))))
                open_session
                (PList [survey_row 1 "A"; survey_row 2 "B"])
                [] [survey_row 2 "B"] (survey_row 1 "A")
                (LimeSurveyError (PStr "Error: No survey participants table")
                                 (PInt (-32099)))) as H.
  destruct H as (_ & _ & F & W).
  - vm_compute. reflexivity.
  - vm_compute. reflexivity.
  - reflexivity.
  - reflexivity.
  - vm_compute. reflexivity.
  - split; [exact F|exact W].
Defined.



(** Once closed, the session still lists the surveys: the request is posted
    with the key [None] and the reply is returned. *)
Lemma closed_session_still_calls :
  let closed := {| url := JSON_BASE_URL; key := PNone |} in
  let w := snd (close (scripted conflicting_reports) open_session fresh) in
  fst (close (scripted conflicting_reports) open_session fresh) = Ok closed
  /\ fst (surveys (scripted conflicting_reports) closed w) = Ok (PList [])
  /\ map (fun rq => (req_method rq, req_params rq))
       (sent (snd (surveys (scripted conflicting_reports) closed w)))
     = [("release_session_key", [PStr "k3y"]); ("list_surveys", [PNone])].
Proof. vm_compute. auto. Qed.

Lemma release_exactly_once_witness :
  exists before id,
    sent (snd (run service_example fresh))
    = sent fresh ++ before
      ++ [{| req_id := id; req_method := "release_session_key";
             req_params := [key open_session] |}]
    /\ releases before = 0%nat
    /\ releases (before ++ [{| req_id := id;
                               req_method := "release_session_key";
                               req_params := [key open_session] |}]) = 1%nat.
Proof.
  apply (release_exactly_once (scripted service_example) decoder JSON_BASE_URL
           user password fresh
           (snd (__init__ (scripted service_example) JSON_BASE_URL user password
                   fresh))
           open_session).
  vm_compute. reflexivity.
Defined.


End ConcreteRuns.

(** ** Serialising, parsing and serialising again *)

Section Text.

Local Open Scope string_scope.

Lemma append_assoc (a b c : string) : (a ++ b) ++ c = a ++ (b ++ c).
Proof. induction a as [|x a IH]; simpl; [reflexivity|now rewrite IH]. Qed.







(** *** Strings *)



(** *** Integers *)








(** *** Sorted items *)

Lemma string_ltb_asym s t : String.ltb s t = true -> String.ltb t s = false.
Proof.
  unfold String.ltb. rewrite (String.compare_antisym t s).
  destruct (String.compare s t); cbn; congruence.
Qed.

Lemma key_ltb_asym a b : key_ltb a b = Some true -> key_ltb b a = Some false.
Proof.
  destruct a as [|x|x|s], b as [|y|y|t]; cbn; try discriminate;
    intros [= H]; f_equal;
    try (apply string_ltb_asym; assumption);
    try (destruct x); try (destruct y); try discriminate; try reflexivity;
    try (apply Z.ltb_ge; apply Z.ltb_lt in H; lia).
Qed.

Lemma insert_item_ordered {A} (x : pykey * A) l : forall y r,
  ordered (y :: l) ->
  key_ltb (fst y) (fst x) = Some true ->
  insert_item x l = Ok r ->
  ordered (y :: r).
Proof.
  induction l as [|z l IH]; intros y r Ho Hyx Hi; cbn in Hi.
  - injection Hi as <-. constructor; [now apply key_ltb_asym|constructor].
  - inversion Ho as [| |? ? ? Hzy Hzl]; subst.
    destruct (key_ltb (fst z) (fst x)) as [[]|] eqn:Hzx; [| |discriminate].
    + destruct (insert_item x l) as [r'|] eqn:Hr; [|discriminate].
      cbn in Hi. injection Hi as <-.
      constructor; [exact Hzy|]. eapply IH; eauto.
    + injection Hi as <-.
      constructor; [now apply key_ltb_asym|]. now constructor.
Qed.

Lemma sort_items_ordered {A} (l : list (pykey * A)) : forall r,
  sort_items l = Ok r -> ordered r.
Proof.
  induction l as [|x l IH]; intros r H; cbn in H.
  - injection H as <-. constructor.
  - destruct (sort_items l) as [s|] eqn:Hs; [|discriminate]. cbn in H.
    specialize (IH s eq_refl).
    destruct s as [|y s]; cbn in H.
    + injection H as <-. constructor.
    + destruct (key_ltb (fst y) (fst x)) as [[]|] eqn:Hyx; [| |discriminate].
      * destruct (insert_item x s) as [r'|] eqn:Hr; [|discriminate].
        cbn in H. injection H as <-. eapply insert_item_ordered; eauto.
      * injection H as <-. now constructor.
Qed.


Lemma insert_item_perm {A} (x : pykey * A) l : forall r,
  insert_item x l = Ok r -> Permutation (x :: l) r.
Proof.
  induction l as [|y l IH]; intros r H; cbn in H.
  - injection H as <-. reflexivity.
  - destruct (key_ltb (fst y) (fst x)) as [[]|]; [| |discriminate].
    + destruct (insert_item x l) as [r'|]; [|discriminate].
      cbn in H. injection H as <-.
      rewrite perm_swap. constructor. now apply IH.
    + injection H as <-. reflexivity.
Qed.

Lemma sort_items_perm {A} (l : list (pykey * A)) : forall r,
  sort_items l = Ok r -> Permutation l r.
Proof.
  induction l as [|x l IH]; intros r H; cbn in H.
  - injection H as <-. reflexivity.
  - destruct (sort_items l) as [s|]; [|discriminate]. cbn in H.
    rewrite <- (insert_item_perm _ _ _ H). constructor. now apply IH.
Qed.

(** *** dict(pairs) *)




(** *** Values *)

Lemma encode_PList level l :
  encode level (PList l)
  = rbind (encode_all (S level) l)
      (fun chunks => Ok (bracket "[" "]" level chunks)).
Proof.
  cbn [encode]. f_equal.
  induction l as [|x l IH]; [reflexivity|].
  cbn [encode_all]. rewrite <- IH. reflexivity.
Qed.

Lemma encode_PDict level d :
  encode level (PDict d)
  = rbind (encode_items (S level) d) (fun kcs =>
    rbind (sort_items kcs) (fun sorted =>
    Ok (bracket "{" "}" level (map item_text sorted)))).
Proof.
  cbn [encode]. f_equal.
  induction d as [|[k x] d IH]; [reflexivity|].
  cbn [encode_items]. rewrite <- IH. reflexivity.
Qed.






















Lemma distinct_keys_NoDup ks :
  distinct_keys ks = true ->
  forallb is_str_key ks = true ->
  List.NoDup (map key_str ks).
Proof.
  induction ks as [|k ks IH]; cbn; intros Hd Hs; [constructor|].
  apply andb_prop in Hd as [Hk Hd]. apply andb_prop in Hs as [Hsk Hs].
  constructor; [|auto].
  intros Hin. apply in_map_iff in Hin as (k' & Heq & Hin').
  apply negb_true_iff in Hk.
  assert (Hex : existsb (key_eqb k) ks = true).
  { apply existsb_exists. exists k'. split; [exact Hin'|].
    assert (Hs' : is_str_key k' = true).
    { rewrite forallb_forall in Hs. auto. }
    destruct k, k'; try discriminate. cbn in *. subst. apply String.eqb_refl. }
  congruence.
Qed.

Lemma forallb_str_keys (d : list (pykey * pyval)) :
  forallb (fun kv => is_str_key (fst kv) && string_keyed (snd kv)) d = true ->
  forallb is_str_key (map fst d) = true.
Proof.
  induction d as [|kv d IH]; cbn; [auto|].
  intros H. apply andb_prop in H as [H1 H2]. apply andb_prop in H1 as [H1 _].
  now rewrite H1, IH.
Qed.




End Text.

Section NumericKeys.

Import Examples.



End NumericKeys.

(** * Further properties of the client *)

(** ** Replies and errors *)

Section Replies.

Variable server : list request -> request -> reply.
Variable export_decode : string -> option pyval.

Import LimeSurveySession.

Lemma _post_world rq w : snd (_post server rq w) = posted rq w.
Proof.
  unfold _post, bind, lift, ret, raise, post_json, posted.
  destruct (server (sent w) rq) as [|response]; [reflexivity|].
  destruct (getitem response "id") as [id|]; cbn; [|reflexivity].
  destruct (eq_int id (req_id rq)); cbn; [|reflexivity].
  destruct (getitem response "result"); cbn; [|reflexivity].
  destruct (getitem response "error"); reflexivity.
Qed.

(** X1: [_post] returns a result and an error exactly for a reply that is a
    mapping with the identifier of the request, a result and an error; the
    request has been posted. *)
Theorem _post_returns_iff (rq : request) (w w' : world) (result error : pyval) :
  _post server rq w = (Ok (result, error), w')
  <->
  (exists response id,
      server (sent w) rq = Body response
      /\ getitem response "id" = Ok id
      /\ eq_int id (req_id rq) = true
      /\ getitem response "result" = Ok result
      /\ getitem response "error" = Ok error)
  /\ w' = posted rq w.
Proof.
  split.
  - intros H. pose proof (_post_world rq w) as Hw. rewrite H in Hw. cbn in Hw.
    split; [|exact Hw].
    unfold _post, bind, lift, ret, raise, post_json in H.
    destruct (server (sent w) rq) as [|response] eqn:Es; [discriminate|].
    destruct (getitem response "id") as [id|] eqn:Ei; cbn in H; [|discriminate].
    destruct (eq_int id (req_id rq)) eqn:Eq; cbn in H; [|discriminate].
    destruct (getitem response "result") as [r|] eqn:Er; cbn in H;
      [|discriminate].
    destruct (getitem response "error") as [e|] eqn:Ee; cbn in H;
      [|discriminate].
    injection H as <- <- _. exists response, id. repeat split; assumption.
  - intros [(response & id & Hs & Hi & He & Hr & Herr) ->].
    unfold _post, bind, lift, ret, raise, post_json, posted.
    rewrite Hs, Hi. cbn. rewrite He, Hr. cbn. rewrite Herr. reflexivity.
Qed.

(** X2: What [_post] raises: the exception of the transport when there is no
    reply, TypeError for a reply that is no mapping, KeyError for a mapping
    without identifier, result or error, AssertionError for the identifier
    of another request. *)
Theorem _post_raises (rq : request) (w : world) :
  (server (sent w) rq = NoReply ->
   fst (_post server rq w) = Raise TransportError)
  /\
  (forall response,
      server (sent w) rq = Body response ->
      (forall d, response <> PDict d) ->
      fst (_post server rq w) = Raise TypeError)
  /\
  (forall d,
      server (sent w) rq = Body (PDict d) ->
      dict_get d (KStr "id") = None
      \/ (exists id, dict_get d (KStr "id") = Some id
                     /\ eq_int id (req_id rq) = true
                     /\ (dict_get d (KStr "result") = None
                         \/ dict_get d (KStr "error") = None)) ->
      fst (_post server rq w) = Raise KeyError)
  /\
  (forall d id,
      server (sent w) rq = Body (PDict d) ->
      dict_get d (KStr "id") = Some id ->
      eq_int id (req_id rq) = false ->
      fst (_post server rq w) = Raise AssertionError).
Proof.
  unfold _post, bind, lift, ret, raise, post_json.
  split; [|split; [|split]].
  - intros ->. reflexivity.
  - intros response -> Hn. destruct response; try reflexivity.
    now destruct (Hn d).
  - intros d -> [Hid|(id & Hid & He & Hr)]; cbn; rewrite Hid; [reflexivity|].
    cbn. rewrite He. cbn.
    destruct Hr as [Hr|Hr].
    + now rewrite Hr.
    + destruct (dict_get d (KStr "result")); cbn; [now rewrite Hr|reflexivity].
  - intros d id -> Hid He. cbn. rewrite Hid. cbn. now rewrite He.
Qed.

(** An error object with a code and a message is raised with them. *)
Lemma error2exception_error (func : M (pyval * pyval)) (w w' : world)
    (response error code message : pyval) :
  func w = (Ok (response, error), w') ->
  truthy error = true ->
  getitem error "code" = Ok code ->
  getitem error "message" = Ok message ->
  error2exception func w = (Raise (LimeSurveyError message code), w').
Proof.
  intros Hf Ht Hc Hm. unfold error2exception, bind.
  rewrite Hf. cbn. now rewrite Ht, Hc, Hm.
Qed.

(** X3: Whatever the wrapped call returned as error, [error2exception] lets no
    TypeError or KeyError of its own escape: without a truthy error the
    response is returned; with one, LimeSurveyError is raised, with the
    message and the code of the error object when it has both, and with the
    code -32603 of an internal error otherwise. *)
Theorem error2exception_outcome (func : M (pyval * pyval)) (w w' : world)
    (response error : pyval) :
  func w = (Ok (response, error), w') ->
  (truthy error = false -> error2exception func w = (Ok response, w'))
  /\
  (truthy error = true ->
   forall code message,
     getitem error "code" = Ok code ->
     getitem error "message" = Ok message ->
     error2exception func w = (Raise (LimeSurveyError message code), w'))
  /\
  (truthy error = true ->
   (exists e, getitem error "code" = Raise e)
   \/ (exists e, getitem error "message" = Raise e) ->
   error2exception func w
   = (Raise (LimeSurveyError (PStr "Unexpected JSON-RPC error type")
                             (PInt (-32603))), w')).
Proof.
  intros Hf. unfold error2exception, bind. rewrite Hf. cbn.
  split; [|split].
  - now intros ->.
  - intros -> code message -> ->. reflexivity.
  - intros -> H.
    assert (Hc : forall k v, getitem error k = Raise v ->
                             caught_TypeError_KeyError v = true).
    { intros k v. destruct error; cbn; try (intros [= <-]; reflexivity).
      destruct (dict_get d (KStr k)); [discriminate|]. now intros [= <-]. }
    destruct H as [[e He]|[e He]].
    + rewrite He. cbn. now rewrite (Hc _ _ He).
    + destruct (getitem error "code") as [c|e'] eqn:Ec; cbn.
      * rewrite He. cbn. now rewrite (Hc _ _ He).
      * now rewrite (Hc _ _ Ec).
Qed.

(** An exception of the wrapped call passes through [error2exception]. *)
Lemma error2exception_raise (func : M (pyval * pyval)) w e w' :
  func w = (Raise e, w') -> error2exception func w = (Raise e, w').
Proof. intros H. unfold error2exception, bind. now rewrite H. Qed.

(** X4: A status in the result that is not the empty-result status of the call
    is raised as LimeSurveyError with that status as message and the code
    -32099, whatever error object the reply carries. *)
Theorem other_status_is_raised (self : t) (survey arg : pyval) (w w' : world)
    (result error status : pyval) :
  getitem result "status" = Ok status ->
  (( (rq <- _request "list_participants"
             [key self; survey; PInt 0; PInt 5000; PBool false; arg] ;
      _post server rq) w = (Ok (result, error), w') ->
    eq_str status "No Tokens found" = false ->
    participants server self survey arg w
    = (Raise (LimeSurveyError status (PInt (-32099))), w'))
   /\
   ( (rq <- _request "export_responses"
             [key self; survey; PStr "json"; PStr "fr"; arg] ;
      _post server rq) w = (Ok (result, error), w') ->
    eq_str status "No Data, could not get max id." = false ->
    responses server export_decode self survey arg w
    = (Raise (LimeSurveyError status (PInt (-32099))), w'))).
Proof.
  intros Hstatus. split; intros Hpost Hne.
  - unfold participants.
    eapply (error2exception_error _ w w' (PList []) (status_error status));
      try reflexivity.
    unfold bind in *.
    destruct (_request _ _ w) as [[rq|e] w1]; [|discriminate].
    rewrite Hpost. cbn. rewrite Hstatus, Hne. reflexivity.
  - unfold responses.
    eapply (error2exception_error _ w w'
              (PDict [(KStr "responses", PList [])]) (status_error status));
      try reflexivity.
    unfold bind in *.
    destruct (_request _ _ w) as [[rq|e] w1]; [|discriminate].
    rewrite Hpost. cbn.
    rewrite (decode_export_not_str export_decode _ _ Hstatus), Hstatus, Hne.
    reflexivity.
Qed.

End Replies.

(** ** The world after a call *)

Section Calls.

Variable server : list request -> request -> reply.
Variable export_decode : string -> option pyval.

Import LimeSurveySession.

Lemma call_world method params w :
  snd ((rq <- _request method params ; _post server rq) w)
  = called method params w.
Proof.
  unfold bind, _request, _generate_request_id, ret. cbn.
  now rewrite _post_world.
Qed.

Lemma surveys_world self w :
  snd (surveys server self w) = called "list_surveys" [key self] w.
Proof. unfold surveys. rewrite error2exception_world. apply call_world. Qed.

Lemma participants_world self survey attributes w :
  snd (participants server self survey attributes w)
  = called "list_participants"
      [key self; survey; PInt 0; PInt 5000; PBool false; attributes] w.
Proof.
  unfold participants. rewrite error2exception_world.
  rewrite call_bind_world; [apply call_world|].
  intros [responses error] w1.
  destruct (getitem responses "status") as [status|e].
  - destruct (eq_str status "No Tokens found"); reflexivity.
  - destruct (caught_TypeError_KeyError e); reflexivity.
Qed.

Lemma responses_world self survey status w :
  snd (responses server export_decode self survey status w)
  = called "export_responses"
      [key self; survey; PStr "json"; PStr "fr"; status] w.
Proof.
  unfold responses. rewrite error2exception_world.
  rewrite call_bind_world; [apply call_world|].
  intros [responses error] w1.
  destruct (decode_export export_decode responses) as [decoded|[]]; reflexivity.
Qed.

Lemma participant_properties_world self survey participant attributes w :
  snd (participant_properties server self survey participant attributes w)
  = called "get_participant_properties"
      [key self; survey; participant; attributes] w.
Proof.
  unfold participant_properties. rewrite error2exception_world. apply call_world.
Qed.

Lemma __init___world url username password w :
  snd (__init__ server url username password w)
  = called "get_session_key" [username; password] w.
Proof.
  unfold __init__. rewrite bind_world_same by reflexivity.
  rewrite _get_session_key_world. apply call_world.
Qed.

Lemma close_world self w :
  snd (close server self w) = called "release_session_key" [key self] w.
Proof.
  unfold close, _release_session_key.
  rewrite bind_world_same by reflexivity.
  rewrite call_bind_world by reflexivity. apply call_world.
Qed.

(** X5: The export of [responses]: a string that decodes is returned decoded
    when there is no error; a string that does not decode raises the
    ValueError of the decoding, which [responses] does not catch; a result
    that is neither a string nor a mapping with a status is raised as
    LimeSurveyError with the code -32099. *)
Theorem responses_payload (self : t) (survey status : pyval) (w w' : world)
    (result error : pyval) :
  (rq <- _request "export_responses"
           [key self; survey; PStr "json"; PStr "fr"; status] ;
   _post server rq) w = (Ok (result, error), w') ->
  (forall s decoded,
      result = PStr s -> export_decode s = Some decoded ->
      truthy error = false ->
      responses server export_decode self survey status w = (Ok decoded, w'))
  /\
  (forall s,
      result = PStr s -> export_decode s = None ->
      responses server export_decode self survey status w
      = (Raise ValueError, w'))
  /\
  ((forall s, result <> PStr s) ->
   (forall st, getitem result "status" <> Ok st) ->
   responses server export_decode self survey status w
   = (Raise (LimeSurveyError (PStr expected_base64) (PInt (-32099))), w')).
Proof.
  intros Hpost.
  assert (Hb : forall (k : pyval * pyval -> M (pyval * pyval)),
             (rq <- _request "export_responses"
                      [key self; survey; PStr "json"; PStr "fr"; status] ;
              x <- _post server rq ; k x) w
             = k (result, error) w').
  { intros k. unfold bind in *.
    destruct (_request _ _ w) as [[rq|e] w1]; [|discriminate].
    now rewrite Hpost. }
  unfold responses. split; [|split].
  - intros s decoded -> Hd Ht.
    apply error2exception_no_error with (error := error); [|exact Ht].
    rewrite Hb. cbn. now rewrite Hd.
  - intros s -> Hd. apply error2exception_raise.
    rewrite Hb. cbn. now rewrite Hd.
  - intros Hns Hnst.
    eapply (error2exception_error _ w w'
              (PDict [(KStr "responses", PList [])])
              (status_error (PStr expected_base64)));
      try reflexivity.
    rewrite Hb.
    assert (Hd : decode_export export_decode result = Raise TypeError).
    { destruct result; try reflexivity. now destruct (Hns s). }
    rewrite Hd.
    destruct (getitem result "status") as [st|] eqn:Es; [|reflexivity].
    now destruct (Hnst st).
Qed.

(** X6: When the session cannot be created (the request for the key raises),
    the [with] block is not entered: the exception leaves [download_json],
    the request for the key is the only one posted, no release follows, and
    no file is touched. *)
Theorem failed_session_creation (url : string) (username password : pyval)
    (w w0 : world) (e : exn) :
  __init__ server url username password w = (Raise e, w0) ->
  download_json server export_decode url (Some (username, password)) w
  = (Raise e, w0)
  /\ w0 = called "get_session_key" [username; password] w.
Proof.
  intros H. split.
  - unfold download_json, bind. now rewrite H.
  - pose proof (__init___world url username password w) as Hw.
    now rewrite H in Hw.
Qed.

(** X7: A service without surveys: the run completes, posts the request for
    the key, the listing and the release, and touches no file. *)
Theorem no_survey_no_file (url : string) (username password : pyval)
    (w w0 w1 : world) (session : t) (listed : pyval) :
  __init__ server url username password w = (Ok session, w0) ->
  surveys server session w0 = (Ok listed, w1) ->
  iterate listed = Ok [] ->
  download_json server export_decode url (Some (username, password)) w
  = (match fst (close server session w1) with
     | Ok _ => Ok tt
     | Raise e => Raise e
     end,
     called "release_session_key" [key session]
       (called "list_surveys" [key session]
          (called "get_session_key" [username; password] w))).
Proof.
  intros Hi Hs Hl.
  pose proof (__init___world url username password w) as Hw0.
  rewrite Hi in Hw0. cbn in Hw0.
  pose proof (surveys_world session w0) as Hw1. rewrite Hs in Hw1. cbn in Hw1.
  pose proof (close_world session w1) as Hw2.
  unfold download_json, bind at 1. rewrite Hi. unfold finally.
  unfold bind at 1. rewrite Hs. unfold bind at 1, lift. rewrite Hl. cbn.
  unfold bind, ret.
  destruct (close server session w1) as [[s'|e] w2]; cbn in *;
    now rewrite Hw2, Hw1, Hw0.
Qed.

End Calls.

(** ** Request identifiers *)

Lemma ids_from_app n k1 k2 :
  ids_from n (k1 + k2) = ids_from n k1 ++ ids_from (n + Z.of_nat k1) k2.
Proof.
  revert n. induction k1 as [|k1 IH]; intros n.
  - cbn. now rewrite Z.add_0_r.
  - cbn [Nat.add ids_from app]. rewrite IH. do 3 f_equal. lia.
Qed.

Lemma ids_from_lt n k i : In i (ids_from n k) -> n < i.
Proof.
  revert n. induction k as [|k IH]; intros n; cbn; [tauto|].
  intros [<-|H]; [lia|]. apply IH in H. lia.
Qed.

Lemma ids_from_NoDup n k : List.NoDup (ids_from n k).
Proof.
  revert n. induction k as [|k IH]; intros n; cbn; constructor; [|apply IH].
  intros H. apply ids_from_lt in H. lia.
Qed.

Lemma numbers_quiet {A} (m : M A) :
  (forall w, sent (snd (m w)) = sent w /\ request_id (snd (m w)) = request_id w) ->
  numbers m.
Proof.
  intros H w. destruct (H w) as [Hs Hr]. exists [].
  rewrite app_nil_r. cbn. split; [exact Hs|]. split; [reflexivity|]. lia.
Qed.

Lemma numbers_ret {A} (a : A) : numbers (ret a).
Proof. apply numbers_quiet. intros w. split; reflexivity. Qed.

Lemma numbers_lift {A} (r : result A) : numbers (lift r).
Proof. apply numbers_quiet. intros w. split; reflexivity. Qed.

Lemma numbers_save path data : numbers (save path data).
Proof.
  apply numbers_quiet. intros w. unfold save, write_file, ret.
  destruct (fs w !! path) as [old|]; [destruct (String.eqb old data)|];
    split; reflexivity.
Qed.

Lemma numbers_bind {A B} (m : M A) (k : A -> M B) :
  numbers m -> (forall a, numbers (k a)) -> numbers (bind m k).
Proof.
  intros Hm Hk w. unfold bind.
  destruct (Hm w) as (d1 & S1 & I1 & R1).
  destruct (m w) as [[a|e] w1]; cbn in *.
  - destruct (Hk a w1) as (d2 & S2 & I2 & R2).
    exists (d1 ++ d2). rewrite S2, S1, R2, R1, map_app, I1, I2, R1.
    rewrite length_app, ids_from_app, Nat2Z.inj_add, <- app_assoc.
    split; [reflexivity|]. split; [reflexivity|]. lia.
  - exists d1. auto.
Qed.

Lemma numbers_for_each {A} (body : A -> M unit) (l : list A) :
  (forall x, numbers (body x)) -> numbers (for_each body l).
Proof.
  intros Hb. induction l as [|x l IH]; cbn.
  - apply numbers_ret.
  - apply numbers_bind; auto.
Qed.

Lemma numbers_finally {A} (m : M A) (h : M unit) :
  numbers m -> numbers h -> numbers (finally m h).
Proof.
  intros Hm Hh w. unfold finally.
  destruct (Hm w) as (d1 & S1 & I1 & R1).
  destruct (m w) as [r w1]; cbn in *.
  destruct (Hh w1) as (d2 & S2 & I2 & R2).
  exists (d1 ++ d2).
  assert (E : snd (let (r0, w'') := h w1 in
                   match r0 with
                   | Ok _ => (r, w'')
                   | Raise e => (Raise e, w'')
                   end) = snd (h w1)).
  { destruct (h w1) as [[[]|e] w2]; reflexivity. }
  rewrite E, S2, S1, R2, R1, map_app, I1, I2, R1.
  rewrite length_app, ids_from_app, Nat2Z.inj_add, <- app_assoc.
  split; [reflexivity|]. split; [reflexivity|]. lia.
Qed.

Lemma numbers_called {A} (m : M A) method (params : world -> list pyval) :
  (forall w, snd (m w) = called method (params w) w) -> numbers m.
Proof.
  intros H w. exists [next_request w method (params w)]. rewrite H. cbn.
  split; [reflexivity|]. split; [reflexivity|]. lia.
Qed.

Section Identifiers.

Variable server : list request -> request -> reply.
Variable export_decode : string -> option pyval.

Import LimeSurveySession.

Lemma numbers_download_survey session survey :
  numbers (download_survey server export_decode session survey).
Proof.
  unfold download_survey.
  apply numbers_bind; [apply numbers_lift|intros title].
  apply numbers_bind; [apply numbers_lift|intros sid].
  apply numbers_bind; [|intros participants].
  { eapply (numbers_called _ _ (fun _ => _)).
    intros w. apply participants_world. }
  apply numbers_bind; [apply numbers_lift|intros ps].
  apply numbers_bind; [apply numbers_lift|intros psc1_from_token].
  apply numbers_bind; [|intros responses].
  { eapply (numbers_called _ _ (fun _ => _)).
    intros w. apply responses_world. }
  apply numbers_bind; [apply numbers_lift|intros responses'].
  apply numbers_bind; [apply numbers_lift|intros data].
  apply numbers_bind; [apply numbers_lift|intros psytools_path].
  apply numbers_save.
Qed.

(** X8: The requests of a run are numbered one after the other from the
    counter of the class on, whatever the service replies and wherever the
    run stops: no identifier is used twice, and the counter ends on the last
    one. *)
Theorem request_ids_are_consecutive (base_url : string)
    (auth : option (pyval * pyval)) (w : world) :
  exists delta,
    sent (snd (download_json server export_decode base_url auth w))
    = sent w ++ delta
    /\ map req_id delta = ids_from (request_id w) (length delta)
    /\ List.NoDup (map req_id delta)
    /\ request_id (snd (download_json server export_decode base_url auth w))
       = request_id w + Z.of_nat (length delta).
Proof.
  assert (H : numbers (download_json server export_decode base_url auth)).
  { unfold download_json. destruct auth as [[username password]|].
    - apply numbers_bind; [|intros session].
      + eapply (numbers_called _ _ (fun _ => _)).
        intros w0. apply __init___world.
      + apply numbers_finally.
        * apply numbers_bind; [|intros listed].
          { eapply (numbers_called _ _ (fun _ => _)).
            intros w0. apply surveys_world. }
          apply numbers_bind; [apply numbers_lift|intros l].
          apply numbers_for_each. intros x. apply numbers_download_survey.
        * apply numbers_bind; [|intros s'; apply numbers_ret].
          eapply (numbers_called _ _ (fun _ => _)).
          intros w0. apply close_world.
    - apply numbers_quiet. intros w0. split; reflexivity. }
  destruct (H w) as (delta & Hs & Hi & Hr).
  exists delta. split; [exact Hs|]. split; [exact Hi|]. split; [|exact Hr].
  rewrite Hi. apply ids_from_NoDup.
Qed.

End Identifiers.

(** ** File names and files *)

Section Paths.

Local Open Scope string_scope.

Lemma prefix_nil s : String.prefix EmptyString s = true.
Proof. now destruct s. Qed.

Lemma space_in_cons c s :
  is_substring " " (String c s) = Ascii.eqb " " c || is_substring " " s.
Proof.
  cbn [is_substring]. cbn [String.prefix].
  destruct (ascii_dec " " c) as [<-|Hne].
  - rewrite prefix_nil. reflexivity.
  - destruct (Ascii.eqb_spec " " c); [contradiction|reflexivity].
Qed.

Lemma space_in_append a b :
  is_substring " " (a ++ b) = is_substring " " a || is_substring " " b.
Proof.
  induction a as [|c a IH].
  - cbn [String.append]. destruct b; reflexivity.
  - cbn [String.append]. rewrite !space_in_cons, IH. apply orb_assoc.
Qed.

Lemma replace_space_free s : is_substring " " (replace " " "_" s) = false.
Proof.
  unfold replace. induction s as [|c s IH]; [reflexivity|].
  cbn [replace_from]. cbn [String.prefix].
  destruct (ascii_dec " " c) as [<-|Hne].
  - rewrite prefix_nil. cbn [String.length Nat.sub String.append].
    rewrite space_in_cons, IH. reflexivity.
  - rewrite space_in_cons, IH.
    destruct (Ascii.eqb_spec " " c); [contradiction|reflexivity].
Qed.

Lemma path_join_space_free a b :
  is_substring " " a = false -> is_substring " " b = false ->
  is_substring " " (path_join a b) = false.
Proof.
  intros Ha Hb. unfold path_join. destruct (String.prefix "/" b); [exact Hb|].
  destruct a as [|c a']; [exact Hb|].
  destruct (String.eqb _ "/"); rewrite !space_in_append, Ha, Hb; reflexivity.
Qed.

Lemma path_join_suffix a b suffix :
  exists stem, path_join a (b ++ suffix) = stem ++ suffix.
Proof.
  unfold path_join. destruct (String.prefix "/" (b ++ suffix)); [now exists b|].
  destruct a as [|c a']; [now exists b|].
  destruct (String.eqb _ "/").
  - exists (String c a' ++ b). now rewrite append_assoc.
  - exists (String c a' ++ "/" ++ b). now rewrite !append_assoc.
Qed.

Lemma space_free_path (title : pyval) (path : string) :
  psytools_path_of title = Ok path -> is_substring " " path = false.
Proof.
  destruct title as [| | |t| |]; try discriminate. cbn [psytools_path_of].
  intros [= <-]. apply path_join_space_free; [reflexivity|].
  now rewrite space_in_append, replace_space_free.
Qed.

(** X9: The path a survey is saved to holds no space and ends in ".json",
    whatever the title. *)
Theorem psytools_path_has_no_space (title : pyval) (path : string) :
  psytools_path_of title = Ok path ->
  is_substring " " path = false /\ exists stem, path = stem ++ ".json".
Proof.
  intros H. split; [exact (space_free_path title path H)|].
  destruct title as [| | |t| |]; try discriminate. cbn [psytools_path_of] in H.
  injection H as <-. apply path_join_suffix.
Qed.





End Paths.

(** What [save] leaves at the path, and at the other paths. *)
Lemma save_files (path data : string) (w : world) :
  fst (save path data w) = Ok tt
  /\ fs (snd (save path data w)) !! path = Some data
  /\ (forall other, other <> path ->
        fs (snd (save path data w)) !! other = fs w !! other).
Proof.
  unfold save, write_file, ret.
  destruct (fs w !! path) as [old|] eqn:E.
  - destruct (String.eqb_spec old data) as [->|Hne]; cbn.
    + auto.
    + rewrite lookup_insert_eq.
      repeat split; auto. intros other Ho. now rewrite lookup_insert_ne.
  - cbn. rewrite lookup_insert_eq.
    repeat split; auto. intros other Ho. now rewrite lookup_insert_ne.
Qed.


(** ** Dictionaries *)

Lemma key_eqb_refl k : key_eqb k k = true.
Proof.
  destruct k as [|b|z|s]; cbn; [reflexivity| | |apply String.eqb_refl].
  - destruct b; reflexivity.
  - apply Z.eqb_refl.
Qed.

Lemma key_eqb_sym a b : key_eqb a b = key_eqb b a.
Proof.
  destruct a as [|x|x|s], b as [|y|y|t]; cbn; try reflexivity;
    try apply Z.eqb_sym; try apply String.eqb_sym.
Qed.

Lemma key_eqb_trans a b c :
  key_eqb a b = true -> key_eqb b c = true -> key_eqb a c = true.
Proof.
  destruct a as [|x|x|s], b as [|y|y|t], c as [|z|z|u]; cbn;
    try discriminate; try reflexivity;
    rewrite ?Z.eqb_eq, ?String.eqb_eq; intros; subst; congruence.
Qed.

Lemma key_eqb_false_l a b c :
  key_eqb a b = true -> key_eqb b c = false -> key_eqb a c = false.
Proof.
  intros Hab Hbc. destruct (key_eqb a c) eqn:Hac; [|reflexivity].
  rewrite key_eqb_sym in Hab. now rewrite (key_eqb_trans _ _ _ Hab Hac) in Hbc.
Qed.

Lemma dict_get_set_same d k v k' :
  key_eqb k k' = true -> dict_get (dict_set d k v) k' = Some v.
Proof.
  intros Hk. induction d as [|[k0 v0] d IH]; cbn.
  - now rewrite Hk.
  - destruct (key_eqb k0 k) eqn:E0; cbn.
    + now rewrite (key_eqb_trans _ _ _ E0 Hk).
    + rewrite key_eqb_sym in Hk.
      assert (key_eqb k0 k' = false) as ->; [|exact IH].
      destruct (key_eqb k0 k') eqn:E1; [|reflexivity].
      now rewrite (key_eqb_trans _ _ _ E1 Hk) in E0.
Qed.

Lemma dict_get_set_other d k v k' :
  key_eqb k k' = false -> dict_get (dict_set d k v) k' = dict_get d k'.
Proof.
  intros Hk. induction d as [|[k0 v0] d IH]; cbn.
  - now rewrite Hk.
  - destruct (key_eqb k0 k) eqn:E0; cbn.
    + now rewrite (key_eqb_false_l _ _ _ E0 Hk).
    + now rewrite IH.
Qed.

(** ** The mapping from tokens to identifiers *)

Lemma index_participants_app ps1 : forall ps2 acc,
  index_participants (ps1 ++ ps2) acc
  = rbind (index_participants ps1 acc) (index_participants ps2).
Proof.
  induction ps1 as [|p ps1 IH]; intros ps2 acc; [reflexivity|].
  cbn [app index_participants].
  destruct (getitem p "tid") as [tid|]; [|reflexivity]. cbn.
  destruct (getitem p "token") as [token|]; [|reflexivity]. cbn.
  destruct (getitem p "attribute_1") as [psc1|]; [|reflexivity]. cbn.
  destruct (to_key token) as [kp|]; [|reflexivity]. cbn. apply IH.
Qed.

Lemma index_participants_other ps k : forall acc m,
  Forall (fun p => forall kp, token_key p = Ok kp -> key_eqb kp k = false) ps ->
  index_participants ps acc = Ok m ->
  dict_get m k = dict_get acc k.
Proof.
  induction ps as [|p ps IH]; intros acc m Hf H; cbn in H.
  - now injection H as <-.
  - inversion Hf as [|? ? Hp Hps]; subst. unfold token_key in Hp.
    destruct (getitem p "tid") as [tid|]; [|discriminate]. cbn in H.
    destruct (getitem p "token") as [token|]; [|discriminate]. cbn in H, Hp.
    destruct (getitem p "attribute_1") as [psc1|]; [|discriminate]. cbn in H.
    destruct (to_key token) as [kp|]; [|discriminate]. cbn in H.
    rewrite (IH _ _ Hps H). apply dict_get_set_other. now apply Hp.
Qed.

(** X12: The mapping built from the participants sends a token to the
    identifier of the last participant listed with it, and has no entry for
    a token that no participant carries. *)
Theorem psc1_from_token_lookup (ps : list pyval) (m : list (pykey * pyval))
    (k : pykey) :
  index_participants ps [] = Ok m ->
  (forall before p after psc1,
      ps = before ++ p :: after ->
      token_key p = Ok k ->
      getitem p "attribute_1" = Ok psc1 ->
      Forall (fun q => forall kq, token_key q = Ok kq -> key_eqb kq k = false)
        after ->
      dict_get m k = Some psc1)
  /\
  (Forall (fun q => forall kq, token_key q = Ok kq -> key_eqb kq k = false) ps ->
   dict_get m k = None).
Proof.
  intros H. split.
  - intros before p after psc1 -> Hk Ha Hafter.
    rewrite index_participants_app in H.
    destruct (index_participants before []) as [m0|]; [|discriminate].
    cbn [rbind index_participants] in H. unfold token_key in Hk.
    destruct (getitem p "tid") as [tid|]; [|discriminate]. cbn in H.
    destruct (getitem p "token") as [token|]; [|discriminate]. cbn in H, Hk.
    rewrite Ha in H. cbn in H. rewrite Hk in H. cbn in H.
    rewrite (index_participants_other _ _ _ _ Hafter H).
    apply dict_get_set_same, key_eqb_refl.
  - intros Hf. now rewrite (index_participants_other _ _ _ _ Hf H).
Qed.

(** ** Re-keyed records *)

Lemma dict_set_Forall (P : pykey * pyval -> Prop) d k v :
  Forall P d ->
  (forall k0, key_eqb k0 k = true -> P (k0, v)) ->
  Forall P (dict_set d k v).
Proof.
  intros Hd Hv. induction Hd as [|[k0 v0] d H0 Hd IH]; cbn.
  - constructor; [|constructor]. apply Hv, key_eqb_refl.
  - destruct (key_eqb k0 k) eqn:E; constructor; auto.
Qed.

Lemma rekey_items_sound psc1_from_token kvs0 kvs : forall acc d,
  incl kvs kvs0 ->
  Forall (fun kv => filed_under psc1_from_token (fst kv) (snd kv)
                    /\ In (snd kv) (map snd kvs0)) acc ->
  rekey_items psc1_from_token kvs acc = Ok d ->
  Forall (fun kv => filed_under psc1_from_token (fst kv) (snd kv)
                    /\ In (snd kv) (map snd kvs0)) d.
Proof.
  induction kvs as [|[k v] kvs IH]; intros acc d Hi Ha H; cbn in H.
  - now injection H as <-.
  - destruct (getitem v "token") as [token|] eqn:Et; [|discriminate]. cbn in H.
    destruct (dict_getitem psc1_from_token token) as [psc1|] eqn:Ep;
      [|discriminate]. cbn in H.
    destruct (to_key psc1) as [k'|] eqn:Ek; [|discriminate]. cbn in H.
    eapply IH; [|  |exact H].
    + intros x Hx. apply Hi. now right.
    + apply dict_set_Forall; [exact Ha|]. intros k0 Hk0. cbn. split.
      * exists token, psc1, k'. auto.
      * apply in_map_iff. exists (k, v). split; [reflexivity|].
        apply Hi. now left.
Qed.

Lemma rekey_records_sound psc1_from_token rs : forall rs',
  rekey_records psc1_from_token rs = Ok rs' ->
  Forall2 (fun r r' =>
             exists kvs d,
               items r = Ok kvs /\ r' = PDict d
               /\ Forall (fun kv => filed_under psc1_from_token (fst kv) (snd kv)
                                    /\ In (snd kv) (map snd kvs)) d)
    rs rs'.
Proof.
  induction rs as [|r rs IH]; intros rs' H; cbn in H.
  - injection H as <-. constructor.
  - unfold rekey_record in H.
    destruct (items r) as [kvs|] eqn:Ei; [|discriminate]. cbn in H.
    destruct (rekey_items psc1_from_token kvs []) as [d|] eqn:Er;
      [|discriminate]. cbn in H.
    destruct (rekey_records psc1_from_token rs) as [rest|]; [|discriminate].
    cbn in H. injection H as <-. constructor; [|now apply IH].
    exists kvs, d. split; [exact Ei|]. split; [reflexivity|].
    eapply rekey_items_sound; [apply incl_refl|constructor|exact Er].
Qed.

(** X13: Re-keying changes nothing but the records: an export without
    "responses" is left as it is, and so is every other entry of one that
    has them.  There are as many records after as before, each record is
    stored under an identifier the mapping gives for the token it carries,
    and it is one of the records the export held, unchanged. *)
Theorem rekey_sound (psc1_from_token : list (pykey * pyval))
    (responses out : pyval) :
  rekey psc1_from_token responses = Ok out ->
  (contains responses "responses" = Ok false -> out = responses)
  /\
  (forall records,
      getitem responses "responses" = Ok records ->
      (forall k, KStr k <> KStr "responses" ->
                 getitem out k = getitem responses k)
      /\ exists rs rs',
          iterate records = Ok rs
          /\ getitem out "responses" = Ok (PList rs')
          /\ Forall2 (fun r r' =>
                        exists kvs d,
                          items r = Ok kvs /\ r' = PDict d
                          /\ Forall (fun kv =>
                                       filed_under psc1_from_token (fst kv) (snd kv)
                                       /\ In (snd kv) (map snd kvs)) d)
               rs rs').
Proof.
  intros H. unfold rekey in H. split.
  - intros Hc. rewrite Hc in H. cbn in H. now injection H as <-.
  - intros records Hg.
    destruct responses as [| | | | |d]; try discriminate. cbn in Hg.
    cbn [contains rbind] in H.
    destruct (dict_get d (KStr "responses")) as [v|] eqn:Ed; [|discriminate].
    injection Hg as ->. cbn [getitem] in H. rewrite Ed in H. cbn [rbind] in H.
    destruct (iterate records) as [rs|] eqn:Ei; [|discriminate]. cbn in H.
    destruct (rekey_records psc1_from_token rs) as [rs'|] eqn:Er;
      [|discriminate]. cbn in H. injection H as <-. split.
    + intros k Hk. cbn [getitem]. rewrite dict_get_set_other; [reflexivity|].
      change (String.eqb "responses" k = false).
      apply String.eqb_neq. congruence.
    + exists rs, rs'. split; [reflexivity|]. split.
      * cbn [getitem]. rewrite dict_get_set_same; [reflexivity|apply key_eqb_refl].
      * now apply rekey_records_sound.
Qed.

(** ** The serialised text *)

Section Serialised.

Local Open Scope string_scope.

Lemma plain_append a b : plain (a ++ b) = plain a && plain b.
Proof.
  induction a as [|c a IH]; [reflexivity|].
  cbn [String.append plain]. now rewrite IH, andb_assoc.
Qed.

Lemma plain_escape_char c : plain (escape_char c) = true.
Proof. destruct c as [[] [] [] [] [] [] [] []]; reflexivity. Qed.

Lemma plain_escape s : plain (escape s) = true.
Proof.
  induction s as [|c s IH]; [reflexivity|].
  cbn [escape]. now rewrite plain_append, plain_escape_char, IH.
Qed.

Lemma plain_encode_basestring_ascii s : plain (encode_basestring_ascii s) = true.
Proof.
  unfold encode_basestring_ascii. cbn [plain].
  now rewrite plain_append, plain_escape.
Qed.

Lemma plain_string_of_uint u : plain (NilEmpty.string_of_uint u) = true.
Proof. induction u; cbn [NilEmpty.string_of_uint plain]; auto. Qed.

Lemma plain_int_repr z : plain (int_repr z) = true.
Proof.
  assert (H : forall u, plain (NilZero.string_of_uint u) = true).
  { intros u. destruct u; try apply plain_string_of_uint. reflexivity. }
  unfold int_repr. destruct (Z.to_int z); cbn [NilZero.string_of_int plain].
  - apply H.
  - now rewrite H.
Qed.

Lemma plain_spaces n : plain (spaces n) = true.
Proof. induction n; cbn [spaces plain]; auto. Qed.

Lemma plain_newline_indent level : plain (newline_indent level) = true.
Proof. unfold newline_indent. cbn [plain]. now rewrite plain_spaces. Qed.

Lemma plain_concat sep chunks :
  plain sep = true -> Forall (fun c => plain c = true) chunks ->
  plain (String.concat sep chunks) = true.
Proof.
  intros Hs. induction 1 as [|c chunks Hc Hr IH]; [reflexivity|].
  destruct chunks as [|c2 chunks]; [exact Hc|].
  change (String.concat sep (c :: c2 :: chunks))
    with (c ++ sep ++ String.concat sep (c2 :: chunks)).
  now rewrite !plain_append, Hc, Hs, IH.
Qed.

Lemma plain_bracket open close level chunks :
  plain open = true -> plain close = true ->
  Forall (fun c => plain c = true) chunks ->
  plain (bracket open close level chunks) = true.
Proof.
  intros Ho Hc Hf. unfold bracket. destruct chunks as [|c chunks].
  - now rewrite plain_append, Ho, Hc.
  - rewrite !plain_append, Ho, Hc, !plain_newline_indent, plain_concat; auto.
    rewrite plain_append, plain_newline_indent. reflexivity.
Qed.

Lemma encode_all_Forall (P : string -> Prop) level l :
  Forall (fun v => forall level c, encode level v = Ok c -> P c) l ->
  forall chunks, encode_all level l = Ok chunks -> Forall P chunks.
Proof.
  induction 1 as [|x l Hx _ IH]; cbn; intros chunks H.
  - injection H as <-. constructor.
  - destruct (encode level x) as [c|] eqn:Ec; [|discriminate].
    destruct (encode_all level l) as [cs|]; [|discriminate].
    injection H as <-. constructor; eauto.
Qed.

Lemma encode_items_Forall (P : string -> Prop) level d :
  Forall (fun kv => forall level c, encode level (snd kv) = Ok c -> P c) d ->
  forall kcs, encode_items level d = Ok kcs -> Forall (fun kc => P (snd kc)) kcs.
Proof.
  induction 1 as [|[k x] d Hx _ IH]; cbn; intros kcs H.
  - injection H as <-. constructor.
  - destruct (encode level x) as [c|] eqn:Ec; [|discriminate].
    destruct (encode_items level d) as [cs|]; [|discriminate].
    injection H as <-. constructor; eauto.
Qed.

Lemma plain_encode (v : pyval) :
  forall text level, encode level v = Ok text -> plain text = true.
Proof.
  induction v as [|b|z|s|l IH|d IH] using pyval_nested_ind; intros text level H.
  - now injection H as <-.
  - destruct b; now injection H as <-.
  - injection H as <-. apply plain_int_repr.
  - injection H as <-. apply plain_encode_basestring_ascii.
  - rewrite encode_PList in H.
    destruct (encode_all (S level) l) as [chunks|] eqn:Ea; [|discriminate].
    injection H as <-. apply plain_bracket; try reflexivity.
    eapply encode_all_Forall; [|exact Ea].
    rewrite List.Forall_forall in *. intros x Hx lv c Hc. eapply IH; eauto.
  - rewrite encode_PDict in H.
    destruct (encode_items (S level) d) as [kcs|] eqn:Ea; [|discriminate].
    cbn in H. destruct (sort_items kcs) as [sorted|] eqn:Es; [|discriminate].
    injection H as <-. apply plain_bracket; try reflexivity.
    assert (Hk : Forall (fun kc => plain (snd kc) = true) kcs).
    { eapply (encode_items_Forall (fun c => plain c = true)); [|exact Ea].
      rewrite List.Forall_forall in *. intros x Hx lv c Hc. eapply IH; eauto. }
    rewrite List.Forall_forall in *. intros c Hc.
    apply in_map_iff in Hc as (kc & <- & Hin).
    unfold item_text.
    rewrite !plain_append, plain_encode_basestring_ascii.
    rewrite (Hk kc); [reflexivity|].
    eapply Permutation_in; [symmetry; eapply sort_items_perm; exact Es|exact Hin].
Qed.

(** X14: The text of a document is plain ASCII: printable characters and line
    breaks, whatever characters its strings and keys hold. *)
Theorem dumps_is_ascii (v : pyval) (text : string) :
  dumps v = Ok text -> plain text = true.
Proof. unfold dumps. apply plain_encode. Qed.

End Serialised.

(** ** Canonical order *)

Section Canonical.

Local Open Scope string_scope.

Lemma ltb_false_leb s t : String.ltb s t = false -> String.leb t s = true.
Proof.
  unfold String.ltb, String.leb. rewrite (String.compare_antisym t s).
  destruct (String.compare s t); cbn; congruence.
Qed.

Lemma leb_trans a b c :
  String.leb a b = true -> String.leb b c = true -> String.leb a c = true.
Proof.
  intros H1 H2. apply Is_true_true.
  change (String.le a c). transitivity b; apply Is_true_true; assumption.
Qed.

Lemma ordered_below {A} (x : pykey * A) l :
  Forall (fun y => is_str_key (fst y) = true) (x :: l) ->
  ordered (x :: l) -> below x l.
Proof.
  revert x. induction l as [|y l IH]; intros x Hs Ho; [constructor|].
  inversion Ho as [| |? ? ? Hyx Hyl]; subst.
  inversion Hs as [|? ? Hx Hs']; subst.
  inversion Hs' as [|? ? Hy Hs'']; subst.
  destruct (fst x) as [| | |s] eqn:Ex; try discriminate.
  destruct (fst y) as [| | |t] eqn:Ey; try discriminate.
  cbn in Hyx. injection Hyx as Hyx. apply ltb_false_leb in Hyx.
  constructor; [exists s, t; rewrite Ey; auto|].
  specialize (IH y Hs' Hyl).
  unfold below in *. rewrite List.Forall_forall in *. intros z Hz.
  destruct (IH z Hz) as (t' & u & Et & Eu & Hle).
  rewrite Ey in Et. injection Et as <-.
  exists s, u. split; [exact Ex|]. split; [exact Eu|].
  eapply leb_trans; eauto.
Qed.

(** Two orderings of the same items, their keys being strings that are
    pairwise different, are the same list. *)
Lemma ordered_unique {A} (l1 : list (pykey * A)) : forall l2,
  Forall (fun y => is_str_key (fst y) = true) l1 ->
  List.NoDup (map fst l1) ->
  ordered l1 -> ordered l2 -> Permutation l1 l2 -> l1 = l2.
Proof.
  induction l1 as [|x l1 IH]; intros l2 Hs Hn Ho1 Ho2 Hp.
  - apply Permutation_nil in Hp. now subst.
  - destruct l2 as [|y l2]; [now apply Permutation_sym, Permutation_nil in Hp|].
    assert (Hs2 : Forall (fun y => is_str_key (fst y) = true) (y :: l2)).
    { rewrite List.Forall_forall in *. intros z Hz. apply Hs.
      eapply Permutation_in; [symmetry; exact Hp|exact Hz]. }
    pose proof (ordered_below _ _ Hs Ho1) as Hb1.
    pose proof (ordered_below _ _ Hs2 Ho2) as Hb2.
    assert (Hxy : x = y).
    { assert (Hx : In x (y :: l2)) by (eapply Permutation_in; [exact Hp|now left]).
      assert (Hy : In y (x :: l1))
        by (eapply Permutation_in; [symmetry; exact Hp|now left]).
      destruct Hx as [->|Hx]; [reflexivity|].
      destruct Hy as [->|Hy]; [reflexivity|].
      unfold below in *. rewrite List.Forall_forall in Hb1, Hb2.
      destruct (Hb1 y Hy) as (s & t & Es & Et & Hst).
      destruct (Hb2 x Hx) as (t' & s' & Et' & Es' & Hts).
      rewrite Es in Es'. injection Es' as <-.
      rewrite Et in Et'. injection Et' as <-.
      pose proof (String.leb_antisym _ _ Hst Hts) as ->.
      exfalso. inversion Hn as [|? ? Hnin _]; subst. apply Hnin.
      apply in_map_iff. exists y. split; [congruence|exact Hy]. }
    subst y. f_equal. apply IH.
    + now inversion Hs.
    + now inversion Hn.
    + inversion Ho1; subst; [constructor|assumption].
    + inversion Ho2; subst; [constructor|assumption].
    + eapply Permutation_cons_inv; exact Hp.
Qed.

Lemma insert_item_strings {A} (x : pykey * A) l :
  is_str_key (fst x) = true ->
  Forall (fun y => is_str_key (fst y) = true) l ->
  exists r, insert_item x l = Ok r.
Proof.
  intros Hx. induction 1 as [|y l Hy _ [r IH]]; cbn; [eauto|].
  destruct (fst x) as [| | |s]; try discriminate.
  destruct (fst y) as [| | |t]; try discriminate. cbn.
  destruct (String.ltb t s); [|eauto]. rewrite IH. cbn. eauto.
Qed.

Lemma sort_items_strings {A} (l : list (pykey * A)) :
  Forall (fun y => is_str_key (fst y) = true) l ->
  exists r, sort_items l = Ok r.
Proof.
  induction 1 as [|x l Hx Hl [r IH]]; cbn; [eauto|].
  rewrite IH. cbn. apply insert_item_strings; [exact Hx|].
  rewrite List.Forall_forall in *. intros y Hy. apply Hl.
  eapply Permutation_in; [symmetry; eapply sort_items_perm; exact IH|exact Hy].
Qed.

Lemma encode_items_perm level d d' :
  Permutation d d' ->
  forall kcs, encode_items level d = Ok kcs ->
  exists kcs', encode_items level d' = Ok kcs' /\ Permutation kcs kcs'.
Proof.
  induction 1 as [|[k x] d d' Hp IH|[k1 x1] [k2 x2] d|d d' d'' _ IH1 _ IH2];
    intros kcs H.
  - exists kcs. auto.
  - cbn in H |- *.
    destruct (encode level x) as [c|]; [|discriminate].
    destruct (encode_items level d) as [cs|]; [|discriminate].
    injection H as <-. destruct (IH cs eq_refl) as (cs' & -> & Hcs).
    exists ((k, c) :: cs'). auto.
  - cbn in H |- *.
    destruct (encode level x2) as [c2|]; [|discriminate].
    destruct (encode level x1) as [c1|]; [|discriminate].
    destruct (encode_items level d) as [cs|]; [|discriminate].
    injection H as <-. exists ((k1, c1) :: (k2, c2) :: cs).
    split; [reflexivity|apply perm_swap].
  - destruct (IH1 kcs H) as (kcs1 & H1 & P1).
    destruct (IH2 kcs1 H1) as (kcs2 & H2 & P2).
    exists kcs2. split; [exact H2|]. now transitivity kcs1.
Qed.

Lemma encode_items_keys level d : forall kcs,
  encode_items level d = Ok kcs -> map fst kcs = map fst d.
Proof.
  induction d as [|[k x] d IH]; cbn; intros kcs H.
  - now injection H as <-.
  - destruct (encode level x) as [c|]; [|discriminate].
    destruct (encode_items level d) as [cs|]; [|discriminate].
    injection H as <-. cbn. f_equal. now apply IH.
Qed.

(** X15: The text of a dictionary whose keys are strings does not depend on the
    order in which the dictionary lists its items. *)
Theorem dumps_ignores_insertion_order (level : nat) (d d' : list (pykey * pyval))
    (text : string) :
  Permutation d d' ->
  forallb is_str_key (map fst d) = true ->
  distinct_keys (map fst d) = true ->
  encode level (PDict d) = Ok text ->
  encode level (PDict d') = Ok text.
Proof.
  intros Hp Hs Hd H. rewrite encode_PDict in *.
  destruct (encode_items (S level) d) as [kcs|] eqn:Ea; [|discriminate].
  cbn in H. destruct (sort_items kcs) as [sorted|] eqn:Es; [|discriminate].
  destruct (encode_items_perm _ _ _ Hp _ Ea) as (kcs' & -> & Hk). cbn.
  pose proof (encode_items_keys _ _ _ Ea) as Hkeys.
  assert (Hstr : Forall (fun y : pykey * string => is_str_key (fst y) = true) kcs).
  { rewrite List.Forall_forall. intros y Hy.
    rewrite forallb_forall in Hs. apply Hs. rewrite <- Hkeys.
    now apply in_map. }
  assert (Hstr' : Forall (fun y : pykey * string => is_str_key (fst y) = true) kcs').
  { rewrite List.Forall_forall in *. intros y Hy. apply Hstr.
    eapply Permutation_in; [symmetry; exact Hk|exact Hy]. }
  destruct (sort_items_strings _ Hstr') as [sorted' Es']. rewrite Es'.
  cbn in H |- *. rewrite <- H. do 3 f_equal. symmetry.
  apply ordered_unique.
  - rewrite List.Forall_forall in *. intros y Hy. apply Hstr.
    eapply Permutation_in; [symmetry; eapply sort_items_perm; exact Es|exact Hy].
  - eapply Permutation_NoDup.
    + apply Permutation_map. eapply sort_items_perm. exact Es.
    + rewrite Hkeys.
      assert (Hnd := distinct_keys_NoDup _ Hd Hs).
      clear - Hnd Hs. induction (map fst d) as [|k ks IH]; [constructor|].
      cbn in Hs. apply andb_prop in Hs as [Hk Hs]. cbn in Hnd.
      inversion Hnd as [|? ? Hnin Hnd']; subst.
      constructor; [|auto]. intros Hin. apply Hnin. now apply in_map.
  - eapply sort_items_ordered; exact Es.
  - eapply sort_items_ordered; exact Es'.
  - transitivity kcs; [symmetry; eapply sort_items_perm; exact Es|].
    transitivity kcs'; [exact Hk|eapply sort_items_perm; exact Es'].
Qed.

End Canonical.

(** X16: Every document whose dictionaries are keyed by strings has a text:
    [dumps] raises nothing on it. *)
Theorem dumps_of_string_keyed (v : pyval) :
  string_keyed v = true -> exists text, dumps v = Ok text.
Proof.
  unfold dumps. generalize 0%nat.
  induction v as [|b|z|s|l IH|d IH] using pyval_nested_ind; intros level Hk.
  - cbn. eauto.
  - destruct b; cbn; eauto.
  - cbn. eauto.
  - cbn. eauto.
  - rewrite encode_PList. cbn in Hk.
    assert (H : exists chunks, encode_all (S level) l = Ok chunks).
    { induction IH as [|x l Hx _ IHl]; [cbn; eauto|].
      cbn in Hk. apply andb_prop in Hk as [Hkx Hkl]. cbn.
      destruct (Hx (S level) Hkx) as [c ->].
      destruct (IHl Hkl) as [cs ->]. eauto. }
    destruct H as [chunks ->]. cbn. eauto.
  - rewrite encode_PDict. cbn in Hk. apply andb_prop in Hk as [_ Hk].
    assert (H : exists kcs, encode_items (S level) d = Ok kcs).
    { induction IH as [|[k x] d Hx _ IHd]; [cbn; eauto|].
      cbn in Hk. apply andb_prop in Hk as [Hkx Hkd].
      apply andb_prop in Hkx as [_ Hkx]. cbn in Hx, Hkx |- *.
      destruct (Hx (S level) Hkx) as [c ->].
      destruct (IHd Hkd) as [cs ->]. eauto. }
    destruct H as [kcs Hkcs]. rewrite Hkcs. cbn.
    destruct (sort_items_strings kcs) as [sorted ->]; [|cbn; eauto].
    rewrite List.Forall_forall. intros y Hy.
    pose proof (forallb_str_keys _ Hk) as Hs. rewrite forallb_forall in Hs.
    apply Hs. rewrite <- (encode_items_keys _ _ _ Hkcs). now apply in_map.
Qed.

(** ** A second run *)

Lemma detached_ret {A} (a : A) : detached (ret a).
Proof. exists (Ok a). reflexivity. Qed.

Lemma detached_raise {A} e : detached (@raise A e).
Proof. exists (Raise e). reflexivity. Qed.

Lemma detached_lift {A} (r : result A) : detached (lift r).
Proof. exists r. reflexivity. Qed.

Lemma detached_bind {A B} (m : M A) (k : A -> M B) :
  detached m -> (forall a, detached (k a)) -> detached (bind m k).
Proof.
  intros [rm Hm] Hk. destruct rm as [a|e].
  - destruct (Hk a) as [rk Hrk]. exists rk. intros w. unfold bind.
    specialize (Hm w). destruct (m w) as [[a'|e'] w1]; cbn in Hm; [|discriminate].
    injection Hm as ->. apply Hrk.
  - exists (Raise e). intros w. unfold bind.
    specialize (Hm w). destruct (m w) as [[a'|e'] w1]; cbn in Hm; [discriminate|].
    now injection Hm as ->.
Qed.

Lemma bind_assoc {A B C} (m : M A) (f : A -> M B) (g : B -> M C) w :
  bind (bind m f) g w = bind m (fun a => bind (f a) g) w.
Proof. unfold bind. destruct (m w) as [[a|e] w1]; reflexivity. Qed.

Lemma detached_error2exception func :
  detached func -> detached (error2exception func).
Proof.
  intros H. unfold error2exception. apply detached_bind; [exact H|].
  intros [response error]. destruct (truthy error); [|apply detached_ret].
  destruct (rbind _ _) as [[message code]|e]; [apply detached_raise|].
  destruct (caught_TypeError_KeyError e); apply detached_raise.
Qed.

Section SecondRun.

Variable content : string -> list pyval -> option (pyval * pyval).
Variable export_decode : string -> option pyval.

Import LimeSurveySession.

Lemma _post_stateless rq w :
  fst (_post (stateless content) rq w)
  = match content (req_method rq) (req_params rq) with
    | Some result_error => Ok result_error
    | None => Raise TransportError
    end.
Proof.
  unfold _post, bind, lift, ret, raise, post_json, stateless.
  destruct (content (req_method rq) (req_params rq)) as [[result error]|];
    [|reflexivity].
  cbn. now rewrite Z.eqb_refl.
Qed.

Lemma detached_call method params :
  detached (rq <- _request method params ; _post (stateless content) rq).
Proof.
  exists (match content method params with
          | Some result_error => Ok result_error
          | None => Raise TransportError
          end).
  intros w. unfold bind, _request, _generate_request_id, ret. cbn.
  apply _post_stateless.
Qed.

Lemma detached_call_bind {B} method params (k : pyval * pyval -> M B) :
  (forall x, detached (k x)) ->
  detached (rq <- _request method params ;
            x <- _post (stateless content) rq ; k x).
Proof.
  intros Hk.
  destruct (detached_bind _ k (detached_call method params) Hk) as [r Hr].
  exists r. intros w. rewrite <- (Hr w), bind_assoc. reflexivity.
Qed.

Lemma detached_surveys self : detached (surveys (stateless content) self).
Proof. apply detached_error2exception, detached_call. Qed.

Lemma detached_participants self survey attributes :
  detached (participants (stateless content) self survey attributes).
Proof.
  apply detached_error2exception, detached_call_bind.
  intros [responses error].
  destruct (getitem responses "status") as [status|e].
  - destruct (eq_str status "No Tokens found"); apply detached_ret.
  - destruct (caught_TypeError_KeyError e);
      [apply detached_ret|apply detached_raise].
Qed.

Lemma detached_responses self survey status :
  detached (responses (stateless content) export_decode self survey status).
Proof.
  apply detached_error2exception, detached_call_bind.
  intros [responses error].
  destruct (decode_export export_decode responses) as [decoded|[]];
    first [apply detached_ret|apply detached_raise].
Qed.

Lemma detached___init__ url username password :
  detached (__init__ (stateless content) url username password).
Proof.
  unfold __init__. apply detached_bind; [|intros k; apply detached_ret].
  unfold _get_session_key. apply detached_call_bind.
  intros [response error].
  destruct (getitem response "status") as [status|e]; [apply detached_ret|].
  destruct (caught_TypeError_KeyError e); [|apply detached_raise].
  destruct (negb (is_none error)); apply detached_ret.
Qed.

Lemma detached_close self : detached (close (stateless content) self).
Proof.
  unfold close, _release_session_key.
  apply detached_bind; [|intros x; apply detached_ret].
  apply detached_call_bind. intros x. apply detached_ret.
Qed.

Lemma download_survey_prepare session survey w :
  download_survey (stateless content) export_decode session survey w
  = (pd <- prepare (stateless content) export_decode session survey ;
     save (fst pd) (snd pd)) w.
Proof.
  unfold download_survey, prepare, bind, lift, ret.
  destruct (getitem survey "surveyls_title") as [title|]; [|reflexivity].
  destruct (getitem survey "sid") as [sid|]; [|reflexivity].
  destruct (participants _ _ _ _ w) as [[participants|] w1]; [|reflexivity].
  destruct (iterate participants) as [ps|]; [|reflexivity].
  destruct (index_participants ps []) as [psc1|]; [|reflexivity].
  destruct (responses _ _ _ _ _ w1) as [[responses|] w2]; [|reflexivity].
  destruct (rekey psc1 responses) as [responses'|]; [|reflexivity].
  destruct (dumps responses') as [data|]; [|reflexivity].
  destruct (psytools_path_of title) as [path|]; reflexivity.
Qed.

Lemma detached_prepare session survey :
  detached (prepare (stateless content) export_decode session survey).
Proof.
  unfold prepare.
  repeat (apply detached_bind;
          [first [apply detached_lift | apply detached_participants
                 | apply detached_responses]|intros ?]).
  apply detached_ret.
Qed.

Lemma prepare_keeps_files session survey :
  keeps_files (prepare (stateless content) export_decode session survey).
Proof.
  unfold prepare.
  repeat (apply keeps_files_bind;
          [first [apply keeps_files_lift | apply participants_keeps_files
                 | apply responses_keeps_files]|intros ?]).
  apply keeps_files_ret.
Qed.

Lemma prepare_path session survey w path data :
  fst (prepare (stateless content) export_decode session survey w) = Ok (path, data) ->
  survey_path survey = Ok path.
Proof.
  unfold prepare, survey_path, bind, lift, ret.
  destruct (getitem survey "surveyls_title") as [title|]; [|discriminate].
  destruct (getitem survey "sid") as [sid|]; [|discriminate].
  destruct (participants _ _ _ _ w) as [[participants|] w1]; [|discriminate].
  destruct (iterate participants) as [ps|]; [|discriminate].
  destruct (index_participants ps []) as [psc1|]; [|discriminate].
  destruct (responses _ _ _ _ _ w1) as [[responses|] w2]; [|discriminate].
  destruct (rekey psc1 responses) as [responses'|]; [|discriminate].
  destruct (dumps responses') as [d|]; [|discriminate].
  cbn. destruct (psytools_path_of title) as [p|]; [|discriminate].
  now intros [= -> _].
Qed.

Lemma prepare_outcome session survey w :
  fst (prepare (stateless content) export_decode session survey w)
  = outcome (stateless content) export_decode session survey.
Proof.
  destruct (detached_prepare session survey) as [r Hr].
  unfold outcome. now rewrite !Hr.
Qed.

Lemma download_survey_outcome session survey w :
  exists w1,
    fs w1 = fs w /\ written w1 = written w
    /\ download_survey (stateless content) export_decode session survey w
       = match outcome (stateless content) export_decode session survey with
         | Ok (path, data) => save path data w1
         | Raise e => (Raise e, w1)
         end.
Proof.
  rewrite download_survey_prepare. unfold bind.
  pose proof (prepare_outcome session survey w) as Ho.
  destruct (prepare_keeps_files session survey w) as [F W].
  destruct (prepare (stateless content) export_decode session survey w)
    as [r w1]. cbn in *. subst r.
  exists w1. split; [exact F|]. split; [exact W|].
  destruct (outcome (stateless content) export_decode session survey)
    as [[path data]|e]; reflexivity.
Qed.

Lemma covered_ext session l f1 f2 :
  (forall p, f1 !! p = f2 !! p) ->
  covered (stateless content) export_decode session l f1 ->
  covered (stateless content) export_decode session l f2.
Proof.
  intros E. induction l as [|x l IH]; cbn; [auto|].
  destruct (outcome (stateless content) export_decode session x) as [[p d]|]; [|auto].
  rewrite E. intros [H1 H2]. auto.
Qed.

Lemma loop_frame session l : forall w q,
  ~ In q (survey_paths l) ->
  fs (snd (for_each (download_survey (stateless content) export_decode session)
             l w)) !! q
  = fs w !! q.
Proof.
  induction l as [|x l IH]; intros w q Hq; [reflexivity|].
  cbn [for_each]. unfold bind.
  destruct (download_survey_outcome session x w) as (w1 & F & W & ->).
  pose proof (prepare_outcome session x fresh) as Ho.
  destruct (outcome (stateless content) export_decode session x) as [[p d]|e] eqn:Eo.
  - apply prepare_path in Ho. cbn [survey_paths] in Hq. rewrite Ho in Hq.
    destruct (save_files p d w1) as (Hr & _ & Hother).
    destruct (save p d w1) as [r w2]. cbn in Hr, Hother. subst r.
    rewrite IH.
    + rewrite Hother; [now rewrite F|]. intros ->. apply Hq. now left.
    + intros Hin. apply Hq. now right.
  - cbn. now rewrite F.
Qed.

Lemma first_loop session l : forall w,
  List.NoDup (survey_paths l) ->
  fst (for_each (download_survey (stateless content) export_decode session) l w)
  = loop_result (stateless content) export_decode session l
  /\ covered (stateless content) export_decode session l
       (fs (snd (for_each (download_survey (stateless content) export_decode
                            session) l w))).
Proof.
  induction l as [|x l IH]; intros w Hn; [split; constructor|].
  cbn [for_each covered loop_result]. unfold bind.
  destruct (download_survey_outcome session x w) as (w1 & F & W & ->).
  pose proof (prepare_outcome session x fresh) as Ho.
  destruct (outcome (stateless content) export_decode session x)
    as [[p d]|e] eqn:Eo; [|split; constructor].
  apply prepare_path in Ho. cbn [survey_paths] in Hn. rewrite Ho in Hn.
  inversion Hn as [|? ? Hnin Hn']; subst.
  destruct (save_files p d w1) as (Hr & Hsame & _).
  pose proof (loop_frame session l (snd (save p d w1)) p Hnin) as Hf.
  destruct (save p d w1) as [r w2]. cbn in Hr, Hsame, Hf. subst r.
  destruct (IH w2 Hn') as [IH1 IH2].
  split; [exact IH1|]. split; [|exact IH2].
  now rewrite Hf.
Qed.

Lemma second_loop session l : forall w,
  covered (stateless content) export_decode session l (fs w) ->
  fst (for_each (download_survey (stateless content) export_decode session) l w)
  = loop_result (stateless content) export_decode session l
  /\ fs (snd (for_each (download_survey (stateless content) export_decode session)
                l w)) = fs w
  /\ written (snd (for_each (download_survey (stateless content) export_decode
                              session) l w)) = written w.
Proof.
  induction l as [|x l IH]; intros w Hc; [repeat split|].
  cbn [for_each covered loop_result] in *. unfold bind.
  destruct (download_survey_outcome session x w) as (w1 & F & W & ->).
  destruct (outcome (stateless content) export_decode session x)
    as [[p d]|e] eqn:Eo; [|cbn; auto].
  destruct Hc as [Hp Hc].
  unfold save, ret. rewrite F, Hp, String.eqb_refl.
  rewrite <- F in Hc. destruct (IH w1 Hc) as (R & F' & W').
  split; [exact R|]. split; [now rewrite F', F|now rewrite W', W].
Qed.

(** X17: When the replies depend on the requests only and the surveys are saved
    to paths that differ from one another, a run that follows another one
    ends as the first did, and changes and writes no file. *)
Theorem second_run_writes_nothing (url : string) (username password : pyval)
    (w w0 w1 : world) (session : t) (listed : pyval) (l : list pyval) :
  __init__ (stateless content) url username password w = (Ok session, w0) ->
  surveys (stateless content) session w0 = (Ok listed, w1) ->
  iterate listed = Ok l ->
  List.NoDup (survey_paths l) ->
  let first := download_json (stateless content) export_decode url
                 (Some (username, password)) w in
  let second := download_json (stateless content) export_decode url
                  (Some (username, password)) (snd first) in
  fst second = fst first
  /\ fs (snd second) = fs (snd first)
  /\ written (snd second) = written (snd first).
Proof.
  intros Hi Hs Hl Hn.
  assert (Hrun : forall v,
    exists v1 : world,
      fs v1 = fs v /\ written v1 = written v
      /\ forall r v2,
          for_each (download_survey (stateless content) export_decode session)
            l v1 = (r, v2) ->
          exists v3 : world,
            fs v3 = fs v2 /\ written v3 = written v2
            /\ download_json (stateless content) export_decode url
                 (Some (username, password)) v
               = (match fst (close (stateless content) session fresh) with
                  | Ok _ => r
                  | Raise e => Raise e
                  end, v3)).
  { intros v.
    destruct (detached___init__ url username password) as [ri Hri].
    pose proof (Hri w) as Hiw. rewrite Hi in Hiw. cbn in Hiw. subst ri.
    destruct (detached_surveys session) as [rs Hrs].
    pose proof (Hrs w0) as Hsw. rewrite Hs in Hsw. cbn in Hsw. subst rs.
    pose proof (Hri v) as Hiv.
    destruct (__init__ (stateless content) url username password v)
      as [ri v0] eqn:Ei. cbn in Hiv. subst ri.
    pose proof (Hrs v0) as Hsv.
    destruct (surveys (stateless content) session v0) as [rs v1] eqn:Es.
    cbn in Hsv. subst rs.
    exists v1.
    pose proof (__init___world (stateless content) url username password v) as Hw0.
    rewrite Ei in Hw0. cbn in Hw0.
    pose proof (surveys_world (stateless content) session v0) as Hw1.
    rewrite Es in Hw1. cbn in Hw1.
    split; [now rewrite Hw1, Hw0|]. split; [now rewrite Hw1, Hw0|].
    intros r v2 Hloop.
    destruct (detached_close session) as [rc Hrc].
    pose proof (close_world (stateless content) session v2) as Hw3.
    exists (snd (close (stateless content) session v2)).
    split; [now rewrite Hw3|]. split; [now rewrite Hw3|].
    unfold download_json, bind at 1. rewrite Ei. unfold finally.
    unfold bind at 1. rewrite Es. unfold bind at 1, lift at 1. rewrite Hl, Hloop.
    rewrite (Hrc fresh), <- (Hrc v2). unfold bind, ret.
    destruct (close (stateless content) session v2) as [[s'|e] v3]; reflexivity. }
  cbn zeta.
  destruct (Hrun w) as (a1 & Fa & Wa & Ha).
  destruct (for_each (download_survey (stateless content) export_decode session)
              l a1) as [r1 a2] eqn:E1.
  destruct (Ha _ _ eq_refl) as (a3 & Fa3 & Wa3 & ->). cbn [fst snd].
  destruct (Hrun a3) as (b1 & Fb & Wb & Hb).
  destruct (for_each (download_survey (stateless content) export_decode session)
              l b1) as [r2 b2] eqn:E2.
  destruct (Hb _ _ eq_refl) as (b3 & Fb3 & Wb3 & ->). cbn [fst snd].
  destruct (first_loop session l a1 Hn) as [R1 C1]. rewrite E1 in R1, C1.
  cbn in R1, C1.
  assert (C2 : covered (stateless content) export_decode session l (fs b1)).
  { eapply covered_ext; [|exact C1]. intros p. now rewrite Fb, Fa3. }
  destruct (second_loop session l b1 C2) as (R2 & F2 & W2). rewrite E2 in R2, F2, W2.
  cbn in R2, F2, W2.
  split; [now rewrite R1, R2|].
  split; [now rewrite Fb3, F2, Fb|now rewrite Wb3, W2, Wb].
Qed.

End SecondRun.

(** ** The files of a run *)

Lemma tidy_keeps_files {A} (m : M A) : keeps_files m -> tidy m.
Proof.
  intros H w. destruct (H w) as [F W]. exists [].
  rewrite app_nil_r, F. repeat split; auto.
Qed.

Lemma tidy_bind {A B} (m : M A) (k : A -> M B) :
  tidy m -> (forall a, tidy (k a)) -> tidy (bind m k).
Proof.
  intros Hm Hk w. unfold bind.
  destruct (Hm w) as (d1 & W1 & P1 & F1 & K1).
  destruct (m w) as [[a|e] w1]; cbn [snd] in *.
  - destruct (Hk a w1) as (d2 & W2 & P2 & F2 & K2).
    exists (d1 ++ d2)%list. rewrite W2, W1, <- app_assoc.
    split; [reflexivity|]. split; [apply Forall_app; auto|].
    split.
    + intros p Hp. rewrite map_app, in_app_iff in Hp.
      rewrite F2, F1; auto.
    + auto.
  - exists d1. auto.
Qed.

Lemma tidy_for_each {A} (body : A -> M unit) (l : list A) :
  (forall a, tidy (body a)) -> tidy (for_each body l).
Proof.
  intros Hb. induction l as [|a l IH]; cbn [for_each].
  - apply tidy_keeps_files, keeps_files_ret.
  - apply tidy_bind; [apply Hb|intros _; exact IH].
Qed.

Lemma tidy_finally {A} (m : M A) (h : M unit) :
  tidy m -> tidy h -> tidy (finally m h).
Proof.
  intros Hm Hh w. unfold finally.
  destruct (Hm w) as (d1 & W1 & P1 & F1 & K1).
  destruct (m w) as [r w1]; cbn [snd] in *.
  destruct (Hh w1) as (d2 & W2 & P2 & F2 & K2).
  exists (d1 ++ d2)%list.
  assert (E : snd (match h w1 with
                   | (Ok _, w'') => (r, w'')
                   | (Raise e, w'') => (Raise e, w'')
                   end) = snd (h w1)).
  { destruct (h w1) as [[u|e] w2]; reflexivity. }
  rewrite E, W2, W1, <- app_assoc.
  split; [reflexivity|]. split; [apply Forall_app; auto|].
  split.
  - intros p Hp. rewrite map_app, in_app_iff in Hp. rewrite F2, F1; auto.
  - auto.
Qed.

Lemma tidy_save path data :
  is_substring " " path = false -> plain data = true -> tidy (save path data).
Proof.
  intros Hp Hd w.
  assert (Hw : tidy (write_file path data)).
  { intros v. exists [(path, data)]. cbn.
    split; [reflexivity|]. split; [repeat constructor; auto|].
    split.
    - intros p Hn. apply lookup_insert_ne. intros ->. apply Hn. now left.
    - intros p Hs. destruct (decide (path = p)) as [->|Hne].
      + now rewrite lookup_insert_eq.
      + now rewrite lookup_insert_ne. }
  unfold save. destruct (fs w !! path) as [old|]; [|apply Hw].
  destruct (String.eqb old data); [|apply Hw].
  apply (tidy_keeps_files (ret tt)), keeps_files_ret.
Qed.

Section Written.

Variable server : list request -> request -> reply.
Variable export_decode : string -> option pyval.

Lemma tidy_download_survey session survey :
  tidy (download_survey server export_decode session survey).
Proof.
  intros w.
  destruct (download_survey_cases server export_decode session survey w)
    as [(e & w' & -> & F & W)|(t & r & p & d & w1 & _ & Hp & Hd & F & W & ->)].
  - exists []. cbn [snd]. rewrite app_nil_r, F. repeat split; auto.
  - apply space_free_path in Hp. apply plain_encode in Hd.
    destruct (tidy_save p d Hp Hd w1) as (delta & W1 & P1 & F1 & K1).
    exists delta. rewrite W1, W. split; [reflexivity|]. split; [exact P1|].
    rewrite <- F. auto.
Qed.

(** X18: Whatever the service replies and whatever files there are, a run
    writes only to paths that hold no space, writes plain ASCII text only,
    leaves the files it does not write as they were and removes none. *)
Theorem run_writes_plain_files (base_url : string)
    (auth : option (pyval * pyval)) (w : world) :
  let w' := snd (download_json server export_decode base_url auth w) in
  exists delta : list (string * string),
    written w' = (written w ++ delta)%list
    /\ Forall (fun pd => is_substring " " (fst pd) = false
                         /\ plain (snd pd) = true) delta
    /\ (forall p, ~ In p (map fst delta) -> fs w' !! p = fs w !! p)
    /\ (forall p, fs w !! p <> None -> fs w' !! p <> None).
Proof.
  cbn zeta. revert w. change (tidy (download_json server export_decode base_url auth)).
  unfold download_json. destruct auth as [[username password]|].
  - apply tidy_bind.
    + apply tidy_keeps_files. intros w.
      now rewrite (__init___world server).
    + intros session. apply tidy_finally.
      * apply tidy_bind.
        { apply tidy_keeps_files. intros w. now rewrite (surveys_world server). }
        intros listed. apply tidy_bind.
        { apply tidy_keeps_files, keeps_files_lift. }
        intros l. apply tidy_for_each. intros x. apply tidy_download_survey.
      * apply tidy_bind.
        { apply tidy_keeps_files, close_keeps_files. }
        intros _. apply tidy_keeps_files, keeps_files_ret.
  - apply (tidy_keeps_files (raise TypeError)). intros w. split; reflexivity.
Qed.

End Written.

(** ** Concrete instances *)

Section Instances.

Import LimeSurveySession Examples.

Lemma _post_returns_iff_witness :
  _post (scripted service_example)
    (next_request fresh "get_session_key" [user; password]) fresh
  = (Ok (PStr "k3y", PNone),
     posted (next_request fresh "get_session_key" [user; password]) fresh).
Proof.
  apply (proj2 (_post_returns_iff (scripted service_example)
                  (next_request fresh "get_session_key" [user; password])
                  fresh _ (PStr "k3y") PNone)).
  split; [|reflexivity].
  exists (PDict [(KStr "id", PInt 1); (KStr "result", PStr "k3y");
                 (KStr "error", PNone)]), (PInt 1).
  repeat split; reflexivity.
Defined.

Lemma _post_raises_witness :
  fst (_post (fun _ _ => NoReply) (next_request fresh "list_surveys" [PNone])
         fresh)
  = Raise TransportError
  /\ fst (_post (fun _ _ => Body (PDict [(KStr "id", PInt 7)]))
            (next_request fresh "list_surveys" [PNone]) fresh)
     = Raise AssertionError.
Proof.
  split.
  - apply (proj1 (_post_raises (fun _ _ => NoReply)
                    (next_request fresh "list_surveys" [PNone]) fresh)).
    reflexivity.
  - destruct (_post_raises (fun _ _ => Body (PDict [(KStr "id", PInt 7)]))
                (next_request fresh "list_surveys" [PNone]) fresh)
      as (_ & _ & _ & H).
    apply (H [(KStr "id", PInt 7)] (PInt 7)); reflexivity.
Defined.

Lemma error2exception_outcome_witness :
  error2exception
    (ret (PList [], PDict [(KStr "code", PInt (-1)); (KStr "message", PStr "no")]))
    fresh
  = (Raise (LimeSurveyError (PStr "no") (PInt (-1))), fresh).
Proof.
  destruct (error2exception_outcome
              (ret (PList [], PDict [(KStr "code", PInt (-1));
                                     (KStr "message", PStr "no")]))
              fresh fresh (PList [])
              (PDict [(KStr "code", PInt (-1)); (KStr "message", PStr "no")])
              eq_refl) as (_ & H & _).
  apply H; reflexivity.
Defined.

Lemma other_status_is_raised_witness :
  participants (scripted first_survey_fails) open_session (PInt 1)
    (PList [PStr "attribute_1"]) fresh
  = (Raise (LimeSurveyError (PStr "Error: No survey participants table")
                            (PInt (-32099))),
     called "list_participants"
       [PStr "k3y"; PInt 1; PInt 0; PInt 5000; PBool false;
        PList [PStr "attribute_1"]] fresh).
Proof.
  apply (proj1 (other_status_is_raised (scripted first_survey_fails) decoder
                  open_session (PInt 1) (PList [PStr "attribute_1"]) fresh _
                  (PDict [(KStr "status",
                           PStr "Error: No survey participants table")])
                  PNone (PStr "Error: No survey participants table") eq_refl)).
  - vm_compute. reflexivity.
  - reflexivity.
Defined.

Lemma responses_payload_witness :
  responses (scripted service_example) decoder open_session (PInt 1)
    (PStr "all") fresh
  = (Ok export_with_token,
     called "export_responses"
       [PStr "k3y"; PInt 1; PStr "json"; PStr "fr"; PStr "all"] fresh).
Proof.
  destruct (responses_payload (scripted service_example) decoder open_session
              (PInt 1) (PStr "all") fresh
              (called "export_responses"
                 [PStr "k3y"; PInt 1; PStr "json"; PStr "fr"; PStr "all"] fresh)
              (PStr "eyJyZXNwb25zZXMiOlt7ImFiYyI6eyJxMSI6IjUiLCJ0b2tlbiI6ImFiYyJ9fV19")
              PNone) as (H & _).
  - vm_compute. reflexivity.
  - apply (H _ export_with_token eq_refl); reflexivity.
Defined.

Lemma failed_session_creation_witness :
  download_json (fun _ _ => NoReply) decoder JSON_BASE_URL
    (Some (user, password)) fresh
  = (Raise TransportError, called "get_session_key" [user; password] fresh).
Proof.
  destruct (failed_session_creation (fun _ _ => NoReply) decoder JSON_BASE_URL
              user password fresh
              (called "get_session_key" [user; password] fresh)
              TransportError) as [H _].
  - vm_compute. reflexivity.
  - exact H.
Defined.

Lemma no_survey_no_file_witness :
  run conflicting_reports fresh
  = (Ok tt,
     called "release_session_key" [PStr "k3y"]
       (called "list_surveys" [PStr "k3y"]
          (called "get_session_key" [user; password] fresh))).
Proof.
  apply (no_survey_no_file (scripted conflicting_reports) decoder JSON_BASE_URL
           user password fresh
           (called "get_session_key" [user; password] fresh)
           (called "list_surveys" [PStr "k3y"]
              (called "get_session_key" [user; password] fresh))
           open_session (PList [])).
  - vm_compute. reflexivity.
  - vm_compute. reflexivity.
  - reflexivity.
Defined.

Lemma psytools_path_has_no_space_witness :
  is_substring " " baseline_path = false
  /\ exists stem, baseline_path = (stem ++ ".json")%string.
Proof.
  apply (psytools_path_has_no_space (PStr "T1 - Baseline") baseline_path).
  reflexivity.
Defined.



Lemma psc1_from_token_lookup_witness :
  dict_get [(KStr "abc", PStr "PSC002")] (KStr "abc") = Some (PStr "PSC002")
  /\ dict_get [(KStr "abc", PStr "PSC002")] (KStr "xyz") = None.
Proof.
  destruct (psc1_from_token_lookup
              [participant_row 1 "abc" "PSC001"; participant_row 2 "abc" "PSC002"]
              [(KStr "abc", PStr "PSC002")] (KStr "abc") eq_refl) as [H _].
  destruct (psc1_from_token_lookup
              [participant_row 1 "abc" "PSC001"; participant_row 2 "abc" "PSC002"]
              [(KStr "abc", PStr "PSC002")] (KStr "xyz") eq_refl) as [_ H'].
  split.
  - apply (H [participant_row 1 "abc" "PSC001"] (participant_row 2 "abc" "PSC002")
             [] (PStr "PSC002")); try reflexivity.
    constructor.
  - apply H'. repeat constructor; intros kq [= <-]; reflexivity.
Defined.

Lemma rekey_sound_witness :
  getitem rekeyed_export "count" = getitem export_with_token "count"
  /\ exists rs rs',
       iterate (PList [PDict [(KStr "abc", PDict [(KStr "q1", PStr "5");
                                                  (KStr "token", PStr "abc")])]])
       = Ok rs
       /\ getitem rekeyed_export "responses" = Ok (PList rs')
       /\ length rs = length rs'.
Proof.
  destruct (rekey_sound [(KStr "abc", PStr "PSC001")] export_with_token
              rekeyed_export eq_refl) as [_ H].
  destruct (H _ eq_refl) as [Hk (rs & rs' & Hi & Hg & Hall)].
  split; [apply Hk; discriminate|].
  exists rs, rs'. repeat split; [exact Hi|exact Hg|].
  clear -Hall. induction Hall; cbn; congruence.
Defined.

Lemma dumps_is_ascii_witness :
  exists text,
    dumps (PStr (String "233"%char EmptyString)) = Ok text
    /\ plain text = true.
Proof.
  destruct (dumps (PStr (String "233"%char EmptyString))) as [text|e] eqn:E;
    [|vm_compute in E; discriminate].
  exists text. split; [reflexivity|].
  apply (dumps_is_ascii (PStr (String "233"%char EmptyString)) text). exact E.
Defined.

Lemma dumps_ignores_insertion_order_witness :
  encode 0 (PDict [(KStr "a", PInt 2); (KStr "b", PInt 1)])
  = encode 0 (PDict [(KStr "b", PInt 1); (KStr "a", PInt 2)]).
Proof.
  destruct (encode 0 (PDict [(KStr "b", PInt 1); (KStr "a", PInt 2)]))
    as [text|e] eqn:E; [|vm_compute in E; discriminate].
  apply (dumps_ignores_insertion_order 0
           [(KStr "b", PInt 1); (KStr "a", PInt 2)]
           [(KStr "a", PInt 2); (KStr "b", PInt 1)] text).
  - apply perm_swap.
  - reflexivity.
  - reflexivity.
  - exact E.
Defined.

Lemma dumps_of_string_keyed_witness :
  exists text, dumps rekeyed_export = Ok text.
Proof. apply (dumps_of_string_keyed rekeyed_export). reflexivity. Defined.

Lemma second_run_writes_nothing_witness :
  let first := download_json (stateless two_surveys) decoder JSON_BASE_URL
                 (Some (user, password)) fresh in
  let second := download_json (stateless two_surveys) decoder JSON_BASE_URL
                  (Some (user, password)) (snd first) in
  fst second = fst first
  /\ fs (snd second) = fs (snd first)
  /\ written (snd second) = written (snd first).
Proof.
  apply (second_run_writes_nothing two_surveys decoder JSON_BASE_URL user password
           fresh
           (called "get_session_key" [user; password] fresh)
           (called "list_surveys" [PStr "k3y"]
              (called "get_session_key" [user; password] fresh))
           open_session
           (PList [survey_row 1 "T1 - Baseline"; survey_row 2 "T2 - Follow up"])
           [survey_row 1 "T1 - Baseline"; survey_row 2 "T2 - Follow up"]).
  - vm_compute. reflexivity.
  - vm_compute. reflexivity.
  - reflexivity.
  - vm_compute. constructor; [intros [H|[]]; discriminate|].
    constructor; [intros []|constructor].
Defined.

Lemma run_writes_plain_files_witness :
  exists delta : list (string * string),
    written (snd (run service_example fresh)) = (written fresh ++ delta)%list
    /\ Forall (fun pd => is_substring " " (fst pd) = false
                         /\ plain (snd pd) = true) delta
    /\ (forall p, ~ In p (map fst delta) ->
                  fs (snd (run service_example fresh)) !! p = fs fresh !! p)
    /\ (forall p, fs fresh !! p <> None ->
                  fs (snd (run service_example fresh)) !! p <> None).
Proof.
  exact (run_writes_plain_files (scripted service_example) decoder JSON_BASE_URL
           (Some (user, password)) fresh).
Defined.

End Instances.
